(** * Date normalisation and renewal-date derivation

    A shallow embedding of [parseDateAssume2025] and [computeRenewalDate],
    the two helpers that [src/components/CustomerTable.tsx] and
    [src/components/UserDashboard.tsx] each carry a copy of, together with
    the part of the ECMAScript runtime they call: regular-expression tests,
    a few [String.prototype] methods, [parseInt], and the [Date] object
    with its time-value arithmetic (ECMA-262, "Date Objects"). *)

From Stdlib Require Import ZArith List Bool Ascii String Lia Sorted.
Import ListNotations.
Open Scope Z_scope.

(** ** The ECMAScript runtime used by the two helpers *)

Module JS.

(** A Number as the helpers meet it: [NaN], or an integer.  Time values
    and the results of [parseInt] on at most two digits are integers that
    a double holds exactly. *)
Inductive Number : Type :=
| NaN : Number
| Num : Z -> Number.

Definition isNaN (n : Number) : bool :=
  match n with NaN => true | Num _ => false end.

(** *** Time values (ECMA-262, Date Objects) *)

Definition msPerDay : Z := 86400000.
Definition maxTime : Z := 8640000000000000.

Definition Day (t : Z) : Z := t / msPerDay.
Definition TimeWithinDay (t : Z) : Z := t mod msPerDay.

Definition DaysInYear (y : Z) : Z :=
  if negb (y mod 4 =? 0) then 365
  else if negb (y mod 100 =? 0) then 366
  else if negb (y mod 400 =? 0) then 365
  else 366.

Definition DayFromYear (y : Z) : Z :=
  365 * (y - 1970) + (y - 1969) / 4 - (y - 1901) / 100 + (y - 1601) / 400.

Definition TimeFromYear (y : Z) : Z := msPerDay * DayFromYear y.

(** [YearFromTime t] is the largest [y] with [TimeFromYear y <= t].  It is
    computed from the day number counted from 1 January 1601, the start of
    a 400-year cycle of 146097 days. *)
Definition yearFromDay (d : Z) : Z :=
  let d1 := d - DayFromYear 1601 in
  let n400 := d1 / 146097 in
  let r400 := d1 mod 146097 in
  let n100 := Z.min (r400 / 36524) 3 in
  let r100 := r400 - n100 * 36524 in
  let n4 := r100 / 1461 in
  let r4 := r100 mod 1461 in
  let n1 := Z.min (r4 / 365) 3 in
  1601 + 400 * n400 + 100 * n100 + 4 * n4 + n1.

Definition YearFromTime (t : Z) : Z := yearFromDay (Day t).

Definition InLeapYear (t : Z) : Z :=
  if DaysInYear (YearFromTime t) =? 366 then 1 else 0.

Definition DayWithinYear (t : Z) : Z := Day t - DayFromYear (YearFromTime t).

(** Number of the first day of month [m] (0 = January) within a year whose
    leap-year flag is [leap]: the lower bounds of the table that defines
    [MonthFromTime]. *)
Definition monthStart (m leap : Z) : Z :=
  match m with
  | 0 => 0
  | 1 => 31
  | 2 => 59 + leap
  | 3 => 90 + leap
  | 4 => 120 + leap
  | 5 => 151 + leap
  | 6 => 181 + leap
  | 7 => 212 + leap
  | 8 => 243 + leap
  | 9 => 273 + leap
  | 10 => 304 + leap
  | _ => 334 + leap
  end.

Definition monthOfYearDay (dwy leap : Z) : Z :=
  if dwy <? 31 then 0
  else if dwy <? 59 + leap then 1
  else if dwy <? 90 + leap then 2
  else if dwy <? 120 + leap then 3
  else if dwy <? 151 + leap then 4
  else if dwy <? 181 + leap then 5
  else if dwy <? 212 + leap then 6
  else if dwy <? 243 + leap then 7
  else if dwy <? 273 + leap then 8
  else if dwy <? 304 + leap then 9
  else if dwy <? 334 + leap then 10
  else 11.

Definition MonthFromTime (t : Z) : Z :=
  monthOfYearDay (DayWithinYear t) (InLeapYear t).

Definition DateFromTime (t : Z) : Z :=
  DayWithinYear t - monthStart (MonthFromTime t) (InLeapYear t) + 1.

Definition msPerSecond : Z := 1000.
Definition msPerMinute : Z := 60000.
Definition msPerHour : Z := 3600000.

Definition MakeTime (hour min sec ms : Z) : Z :=
  hour * msPerHour + min * msPerMinute + sec * msPerSecond + ms.

(** [MakeDay] asks for a time value [t] with [YearFromTime t = ym],
    [MonthFromTime t = mn] and [DateFromTime t = 1], and returns
    [Day t + dt - 1]; the first day of month [mn] of year [ym] is such a
    [t] (lemma [MakeDay_first_of_month] below). *)
Definition leapFlag (y : Z) : Z := if DaysInYear y =? 366 then 1 else 0.

Definition MakeDay (year month date : Z) : Z :=
  let ym := year + month / 12 in
  let mn := month mod 12 in
  DayFromYear ym + monthStart mn (leapFlag ym) + date - 1.

Definition MakeDate (day time : Z) : Z := day * msPerDay + time.

Definition TimeClip (time : Number) : Number :=
  match time with
  | NaN => NaN
  | Num t => if Z.abs t >? maxTime then NaN else Num t
  end.

(** Number of days of month [m] (1 = January) in year [y]. *)
Definition DaysInMonth (y m : Z) : Z :=
  match m with
  | 2 => 28 + leapFlag y
  | 4 | 6 | 9 | 11 => 30
  | _ => 31
  end.

(** *** Strings

    A string is a sequence of code units; the embedding keeps the 8-bit
    ones ([ascii]).  The helpers look only at ASCII digits, letters, [_],
    [-] and [/]; every other code unit is treated alike by them. *)

Definition chars (s : string) : list ascii := list_ascii_of_string s.
Definition str (l : list ascii) : string := string_of_list_ascii l.

Definition code (c : ascii) : N := N_of_ascii c.

Definition between (a b n : N) : bool := ((a <=? n) && (n <=? b))%N.

(** [\d] and [\w] of a pattern without the [u] flag. *)
Definition isDigit (c : ascii) : bool := between 48 57 (code c).

Definition isWord (c : ascii) : bool :=
  isDigit c || between 65 90 (code c) || between 97 122 (code c)
  || (code c =? 95)%N.

(** [String.prototype.toLowerCase], on the 8-bit code units. *)
Definition toLowerChar (c : ascii) : ascii :=
  let n := code c in
  if between 65 90 n || (between 192 222 n && negb (n =? 215)%N)
  then ascii_of_N (n + 32) else c.

Definition toLowerCase (s : string) : string := str (map toLowerChar (chars s)).

(** [Canonicalize] of a pattern with the [i] flag and without [u]: the
    code unit of the upper-case form, except that a code unit from 128 on
    never becomes an ASCII one.  The micro sign and y-diaeresis have
    their upper-case forms outside the 8-bit range. *)
Definition Canonicalize (ignoreCase : bool) (c : ascii) : N :=
  let n := code c in
  if negb ignoreCase then n
  else if between 97 122 n then (n - 32)%N
  else if between 224 254 n && negb (n =? 247)%N then (n - 32)%N
  else if (n =? 181)%N then 924%N
  else if (n =? 255)%N then 376%N
  else n.

(** [s.replace(/c/g, r)] for a single character [c] and a one-character
    replacement [r]. *)
Definition replaceAllChar (c r : ascii) (s : string) : string :=
  str (map (fun x => if Ascii.eqb x c then r else x) (chars s)).

(** [s.split(sep)] for a one-character separator. *)
Fixpoint splitChars (sep : ascii) (s : list ascii) : list (list ascii) :=
  match s with
  | [] => [[]]
  | c :: s' =>
    if Ascii.eqb c sep then [] :: splitChars sep s'
    else match splitChars sep s' with
         | h :: t => (c :: h) :: t
         | [] => [[c]]
         end
  end.

Definition split (sep : ascii) (s : string) : list string :=
  map str (splitChars sep (chars s)).

(** An array element read by index and used in a template literal: a
    missing element is [undefined] and prints as such. *)
Definition element (i : nat) (a : list string) : string :=
  nth i a "undefined"%string.

(** *** Regular expressions

    The four patterns of the helpers are anchored sequences [^p1 p2 ... pn$]
    of bounded greedy repetitions of a character class, some of them inside
    a capture group. *)

Inductive CharClass : Type :=
| Digit : CharClass            (* \d *)
| Word : CharClass             (* \w *)
| Lit : ascii -> CharClass.    (* a literal character *)

Record Piece : Type := mkPiece {
  cls : CharClass;
  lo : nat;
  hi : nat;
  group : bool
}.

Record RegExp : Type := mkRegExp {
  pieces : list Piece;
  ignoreCase : bool
}.

(** Whether a character is of a class.  The [i] flag compares canonical
    forms; it changes nothing for [\d] and [\w], whose canonical forms are
    those of ASCII digits, letters and [_] only. *)
Definition classMatches (ic : bool) (k : CharClass) (c : ascii) : bool :=
  match k with
  | Digit => isDigit c
  | Word => isWord c
  | Lit a => (Canonicalize ic a =? Canonicalize ic c)%N
  end.

Fixpoint firstSome {A B : Type} (f : A -> option B) (l : list A) : option B :=
  match l with
  | [] => None
  | a :: l' => match f a with
               | Some b => Some b
               | None => firstSome f l'
               end
  end.

(** The repetition counts a greedy quantifier [{lo,hi}] tries, in order. *)
Definition counts (p : Piece) : list nat := rev (seq (lo p) (S (hi p) - lo p)).

(** One attempt of a piece at [k] repetitions: the first [k] characters
    must be of its class and [rest] must match what follows. *)
Definition attempt (ic : bool) (p : Piece)
           (rest : list ascii -> option (list (list ascii)))
           (s : list ascii) (k : nat) : option (list (list ascii)) :=
  let pre := firstn k s in
  if (List.length pre =? k)%nat && forallb (classMatches ic (cls p)) pre
  then match rest (skipn k s) with
       | Some caps => Some (if group p then pre :: caps else caps)
       | None => None
       end
  else None.

(** Backtracking match of the pieces against the whole of [s]; the result
    lists what the capture groups matched. *)
Fixpoint matchPieces (ic : bool) (ps : list Piece) (s : list ascii)
  : option (list (list ascii)) :=
  match ps with
  | [] => match s with [] => Some [] | _ :: _ => None end
  | p :: ps' => firstSome (attempt ic p (matchPieces ic ps') s) (counts p)
  end.

(** [re.test(s)] *)
Definition test (re : RegExp) (s : string) : bool :=
  match matchPieces (ignoreCase re) (pieces re) (chars s) with
  | Some _ => true
  | None => false
  end.

(** [s.match(re)] for a pattern without the [g] flag: [null], or the array
    of the whole match followed by the captures. *)
Definition match_ (s : string) (re : RegExp) : option (list string) :=
  match matchPieces (ignoreCase re) (pieces re) (chars s) with
  | Some caps => Some (s :: map str caps)
  | None => None
  end.

(** *** parseInt(s, 10)

    White space, a sign and the longest run of digits; the helpers call it
    on one or two digits. *)

Definition isWhiteSpace (c : ascii) : bool :=
  between 9 13 (code c) || (code c =? 32)%N || (code c =? 160)%N.

Fixpoint dropWhile {A : Type} (f : A -> bool) (l : list A) : list A :=
  match l with
  | [] => []
  | a :: l' => if f a then dropWhile f l' else l
  end.

Fixpoint takeWhile {A : Type} (f : A -> bool) (l : list A) : list A :=
  match l with
  | [] => []
  | a :: l' => if f a then a :: takeWhile f l' else []
  end.

Definition digitValue (c : ascii) : Z := Z.of_N (code c) - 48.

Definition decimalValue (ds : list ascii) : Z :=
  fold_left (fun acc c => 10 * acc + digitValue c) ds 0.

Definition parseInt10 (s : string) : Number :=
  let s1 := dropWhile isWhiteSpace (chars s) in
  let '(sign, s2) :=
    match s1 with
    | c :: r => if Ascii.eqb c "-" then (-1, r)
                else if Ascii.eqb c "+" then (1, r) else (1, s1)
    | [] => (1, s1)
    end in
  match takeWhile isDigit s2 with
  | [] => NaN
  | ds => Num (sign * decimalValue ds)
  end.

(** *** Date objects *)

(** A Date object holds one time value: [NaN] (an Invalid Date) or a number
    of milliseconds since the epoch within [maxTime] of it. *)
Record Date : Type := mkDate { getTime : Number }.

Definition add (a b : Number) : Number :=
  match a, b with
  | Num x, Num y => Num (x + y)
  | _, _ => NaN
  end.

(** [Date.UTC(year, month, date)] *)
Definition Date_UTC (year month date : Number) : Number :=
  match year, month, date with
  | Num y, Num m, Num dt =>
    let yr := if (0 <=? y) && (y <=? 99) then 1900 + y else y in
    TimeClip (Num (MakeDate (MakeDay yr m dt) (MakeTime 0 0 0 0)))
  | _, _, _ => NaN
  end.

(** The one shape of the Date Time String Format that the helpers build
    themselves: [YYYY-MM-DDT00:00:00Z]. *)
Definition lit (c : ascii) : Piece := mkPiece (Lit c) 1 1 false.

Definition utcMidnight : list Piece :=
  [ mkPiece Digit 4 4 true; lit "-"; mkPiece Digit 2 2 true; lit "-";
    mkPiece Digit 2 2 true;
    lit "T"; lit "0"; lit "0"; lit ":"; lit "0"; lit "0"; lit ":";
    lit "0"; lit "0"; lit "Z" ].

(** [Date.parse].  ECMA-262 fixes the result on a string in the Date Time
    String Format: the time value of the fields, and [NaN] when a field is
    out of bounds (a month outside 01-12, a day outside 01-31).  It leaves
    to the implementation every string outside the format, and engines
    differ on a day within 01-31 that the month does not have (some carry
    it into the next month, some answer [NaN]).  [engine] stands for the
    implementation on all the strings that are not a [YYYY-MM-DDT00:00:00Z]
    with fields in bounds; among them are the other forms of the Date Time
    String Format, which the helpers never build. *)
Section DateParse.

Variable engine : string -> Number.

Definition Date_parse (s : string) : Number :=
  match matchPieces false utcMidnight (chars s) with
  | Some [yyyy; mm; dd] =>
    let y := decimalValue yyyy in
    let m := decimalValue mm in
    let d := decimalValue dd in
    if (1 <=? m) && (m <=? 12) && (1 <=? d) && (d <=? 31) then
      if d <=? DaysInMonth y m
      then Num (MakeDate (MakeDay y (m - 1) d) (MakeTime 0 0 0 0))
      else engine s
    else NaN
  | _ => engine s
  end.

(** [new Date(s)] for a string [s] *)
Definition newDateOfString (s : string) : Date :=
  mkDate (TimeClip (Date_parse s)).

End DateParse.

(** [new Date(n)] for a number [n] *)
Definition newDateOfNumber (n : Number) : Date := mkDate (TimeClip n).

(** [new Date(d)] for a Date object [d]: a new object with the same time
    value. *)
Definition newDateOfDate (d : Date) : Date := mkDate (getTime d).

Definition getUTCDate (d : Date) : Number :=
  match getTime d with
  | NaN => NaN
  | Num t => Num (DateFromTime t)
  end.

(** [d.setUTCDate(date)]: the object after the call. *)
Definition setUTCDate (d : Date) (date : Number) : Date :=
  match getTime d with
  | NaN => d
  | Num t =>
    match date with
    | NaN => mkDate NaN
    | Num dt =>
      let day := MakeDay (YearFromTime t) (MonthFromTime t) dt in
      mkDate (TimeClip (Num (MakeDate day (TimeWithinDay t))))
    end
  end.

(** *** Object literals used as maps *)

(** [obj[key]] on an object literal given by its own properties.  The
    properties inherited from [Object.prototype] all have names longer
    than three characters, so a three-letter key finds own ones only. *)
Fixpoint property (obj : list (string * Z)) (key : string) : option Z :=
  match obj with
  | [] => None
  | (k, v) :: obj' => if String.eqb k key then Some v else property obj' key
  end.

(** Truthiness of a number read from such a map; a missing property reads
    as [undefined] ([None]), which is falsy as well. *)
Definition truthy (n : Z) : bool := negb (n =? 0).

(** *** Texts that are compared or displayed as a whole

    The status of a customer, the labels and the formatted dates are
    strings the code never takes apart: it compares them with [===] or
    hands them to the page.  They are kept as their UTF-16 code units, so
    that the Arabic literals of the source are what they are. *)
Definition Text : Type := list N.

(** The text of an ASCII literal. *)
Definition text (s : string) : Text := map code (chars s).

(** [a === b] on two strings *)
Fixpoint eqText (a b : Text) : bool :=
  match a, b with
  | [], [] => true
  | x :: a', y :: b' => (x =? y)%N && eqText a' b'
  | _, _ => false
  end.

(** [d.toLocaleDateString('ar-EG')].  ECMA-402 returns ["Invalid Date"] for
    a Date whose time value is [NaN]; for the others [localize] stands for
    the formatting of the host (locale data and local time zone). *)
Definition toLocaleDateString (localize : Z -> Text) (d : Date) : Text :=
  match getTime d with
  | NaN => text "Invalid Date"
  | Num t => localize t
  end.

End JS.

(** ** src/components/CustomerTable.tsx *)

Module CustomerTable.
Import JS.

Section Helpers.

Variable engine : string -> Number.

(** [/^\d{4}-\d{2}-\d{2}$/] *)
Definition iso : RegExp :=
  mkRegExp [ mkPiece Digit 4 4 false; lit "-"; mkPiece Digit 2 2 false;
             lit "-"; mkPiece Digit 2 2 false ] false.

(** [/^\d{4}\/\d{2}\/\d{2}$/] *)
Definition ymdSlash : RegExp :=
  mkRegExp [ mkPiece Digit 4 4 false; lit "/"; mkPiece Digit 2 2 false;
             lit "/"; mkPiece Digit 2 2 false ] false.

(** [/^\d{2}\/\d{2}\/\d{4}$/] *)
Definition dmySlash : RegExp :=
  mkRegExp [ mkPiece Digit 2 2 false; lit "/"; mkPiece Digit 2 2 false;
             lit "/"; mkPiece Digit 4 4 false ] false.

(** [/^(\d{1,2})-(\w{3})$/i], e.g. 5-Aug *)
Definition dMon : RegExp :=
  mkRegExp [ mkPiece Digit 1 2 true; lit "-"; mkPiece Word 3 3 true ] true.

Definition map : list (string * Z) :=
  [ ("jan", 1); ("feb", 2); ("mar", 3); ("apr", 4); ("may", 5); ("jun", 6);
    ("jul", 7); ("aug", 8); ("sep", 9); ("oct", 10); ("nov", 11);
    ("dec", 12) ]%string.

Definition parseDateAssume2025 (dateString : option string) : option Date :=
  match dateString with
  | None => None
  | Some EmptyString => None
  | Some dateString =>
    if test iso dateString
    then Some (newDateOfString engine (dateString ++ "T00:00:00Z"))
    else if test ymdSlash dateString
    then Some (newDateOfString engine
                 (replaceAllChar "/" "-" dateString ++ "T00:00:00Z"))
    else if test dmySlash dateString
    then
      let parts := split "/" dateString in
      let dd := element 0 parts in
      let mm := element 1 parts in
      let yyyy := element 2 parts in
      Some (newDateOfString engine
              (yyyy ++ "-" ++ mm ++ "-" ++ dd ++ "T00:00:00Z"))
    else
      let viaDMon :=
        match match_ dateString dMon with
        | Some m =>
          let day := parseInt10 (element 1 m) in
          let monAbbr := toLowerCase (element 2 m) in
          match property map monAbbr with
          | Some month =>
            if truthy month
            then Some (newDateOfNumber
                         (Date_UTC (Num 2025) (Num (month - 1)) day))
            else None
          | None => None
          end
        | None => None
        end in
      match viaDMon with
      | Some d => Some d
      | None =>
        let d := newDateOfString engine dateString in
        if negb (isNaN (getTime d)) then Some d else None
      end
  end%string.

Definition computeRenewalDate (charging existingRenewal : option string)
  : option Date :=
  match parseDateAssume2025 existingRenewal with
  | Some existing => Some existing
  | None =>
    match parseDateAssume2025 charging with
    | None => None
    | Some base =>
      let result := newDateOfDate base in
      (* the 31st day counted from the charging date (30 days later) *)
      let result := setUTCDate result (add (getUTCDate result) (Num 30)) in
      Some result
    end
  end.

End Helpers.

Section Display.

Variable engine : string -> Number.
Variable localize : Z -> Text.

(** The placeholder of the date cells (Arabic for "unspecified"). *)
Definition unspecified : Text :=
  [0x63A; 0x64A; 0x631; 0x20; 0x645; 0x62D; 0x62F; 0x62F]%N.

Definition formatDate (dateString : option string) : Text :=
  match parseDateAssume2025 engine dateString with
  | None => unspecified
  | Some d => toLocaleDateString localize d
  end.

Definition formatRenewal (charging renewal : option string) : Text :=
  match computeRenewalDate engine charging renewal with
  | None => unspecified
  | Some d => toLocaleDateString localize d
  end.

End Display.

(** A [<Badge>] element: its variant, its class and its label. *)
Record Badge : Type := mkBadge {
  variant : string;
  className : option string;
  label : Text
}.

Definition getPaymentStatusBadge (status : Text) : Badge :=
  if eqText status (text "paid") || eqText status [0x62F; 0x641; 0x639]%N
  then mkBadge "default" (Some "bg-green-500 hover:bg-green-600"%string)
               [0x62F; 0x641; 0x639]%N
  else mkBadge "secondary" None
               [0x644; 0x645; 0x20; 0x64A; 0x62F; 0x641; 0x639]%N.

Definition getRenewalStatusBadge (status : Text) : Badge :=
  if eqText status (text "done") || eqText status [0x62A; 0x645]%N
  then mkBadge "default" (Some "bg-blue-500 hover:bg-blue-600"%string)
               [0x62A; 0x645; 0x20; 0x627; 0x644; 0x62A; 0x62C; 0x62F; 0x64A;
                0x62F]%N
  else mkBadge "outline" None [0x644; 0x645; 0x20; 0x64A; 0x62A; 0x645]%N.

(** A toast: title, description and, for an error, the variant. *)
Record Toast : Type := mkToast {
  title : Text;
  description : Text;
  toastVariant : option string
}.

Section Deletion.

(** [deleteCustomer] reads one field of a row, its [id], a whole number. *)
Variable Customer : Type.
Variable id : Customer -> Z.

(** [deleteCustomer(id)] on the list of customers the table holds.
    [failed] tells whether the store answered the delete with an error;
    the result is the list afterwards and the toast shown. *)
Definition deleteCustomer (failed : bool) (i : Z) (customers : list Customer)
  : list Customer * Toast :=
  if failed
  then (customers,
        mkToast [0x62E; 0x637; 0x623]%N
                [0x641; 0x634; 0x644; 0x20; 0x641; 0x64A; 0x20; 0x62D; 0x630;
                 0x641; 0x20; 0x627; 0x644; 0x639; 0x645; 0x64A; 0x644]%N
                (Some "destructive"%string))
  else (filter (fun c => negb (id c =? i)) customers,
        mkToast [0x62A; 0x645; 0x20; 0x628; 0x646; 0x62C; 0x627; 0x62D]%N
                [0x62A; 0x645; 0x20; 0x62D; 0x630; 0x641; 0x20; 0x627; 0x644;
                 0x639; 0x645; 0x64A; 0x644; 0x20; 0x628; 0x646; 0x62C; 0x627;
                 0x62D]%N
                None).

(** The same handler with the list it closes over told apart from the
    state.  The handler a render makes filters [shown], the [customers] of
    that render; [setCustomers] replaces the state with the list it is
    given, and a refused delete leaves the state, [current], as it is.
    The two lists differ when another delete has finished since the
    render. *)
Definition deleteCustomerOfRender (failed : bool) (i : Z)
           (shown current : list Customer) : list Customer :=
  if failed then current
  else filter (fun c => negb (id c =? i)) shown.

End Deletion.

Arguments deleteCustomer {Customer} id failed i customers.
Arguments deleteCustomerOfRender {Customer} id failed i shown current.

End CustomerTable.

(** ** src/components/UserDashboard.tsx *)

Module UserDashboard.
Import JS.

Section Helpers.

Variable engine : string -> Number.

(** [/^\d{4}-\d{2}-\d{2}$/] *)
Definition iso : RegExp :=
  mkRegExp [ mkPiece Digit 4 4 false; lit "-"; mkPiece Digit 2 2 false;
             lit "-"; mkPiece Digit 2 2 false ] false.

(** [/^\d{4}\/\d{2}\/\d{2}$/] *)
Definition ymdSlash : RegExp :=
  mkRegExp [ mkPiece Digit 4 4 false; lit "/"; mkPiece Digit 2 2 false;
             lit "/"; mkPiece Digit 2 2 false ] false.

(** [/^\d{2}\/\d{2}\/\d{4}$/] *)
Definition dmySlash : RegExp :=
  mkRegExp [ mkPiece Digit 2 2 false; lit "/"; mkPiece Digit 2 2 false;
             lit "/"; mkPiece Digit 4 4 false ] false.

(** [/^(\d{1,2})-(\w{3})$/i] *)
Definition dMon : RegExp :=
  mkRegExp [ mkPiece Digit 1 2 true; lit "-"; mkPiece Word 3 3 true ] true.

Definition map : list (string * Z) :=
  [ ("jan", 1); ("feb", 2); ("mar", 3); ("apr", 4); ("may", 5); ("jun", 6);
    ("jul", 7); ("aug", 8); ("sep", 9); ("oct", 10); ("nov", 11);
    ("dec", 12) ]%string.

Definition parseDateAssume2025 (dateString : option string) : option Date :=
  match dateString with
  | None => None
  | Some EmptyString => None
  | Some dateString =>
    if test iso dateString
    then Some (newDateOfString engine (dateString ++ "T00:00:00Z"))
    else if test ymdSlash dateString
    then Some (newDateOfString engine
                 (replaceAllChar "/" "-" dateString ++ "T00:00:00Z"))
    else if test dmySlash dateString
    then
      let parts := split "/" dateString in
      let dd := element 0 parts in
      let mm := element 1 parts in
      let yyyy := element 2 parts in
      Some (newDateOfString engine
              (yyyy ++ "-" ++ mm ++ "-" ++ dd ++ "T00:00:00Z"))
    else
      let viaDMon :=
        match match_ dateString dMon with
        | Some m =>
          let day := parseInt10 (element 1 m) in
          let monAbbr := toLowerCase (element 2 m) in
          match property map monAbbr with
          | Some month =>
            if truthy month
            then Some (newDateOfNumber
                         (Date_UTC (Num 2025) (Num (month - 1)) day))
            else None
          | None => None
          end
        | None => None
        end in
      match viaDMon with
      | Some d => Some d
      | None =>
        let d := newDateOfString engine dateString in
        if negb (isNaN (getTime d)) then Some d else None
      end
  end%string.

Definition computeRenewalDate (charging existingRenewal : option string)
  : option Date :=
  match parseDateAssume2025 existingRenewal with
  | Some existing => Some existing
  | None =>
    match parseDateAssume2025 charging with
    | None => None
    | Some base =>
      let result := newDateOfDate base in
      let result := setUTCDate result (add (getUTCDate result) (Num 30)) in
      Some result
    end
  end.

End Helpers.

Section Display.

Variable engine : string -> Number.
Variable localize : Z -> Text.

Definition unspecified : Text :=
  [0x63A; 0x64A; 0x631; 0x20; 0x645; 0x62D; 0x62F; 0x62F]%N.

Definition formatDate (dateString : option string) : Text :=
  match parseDateAssume2025 engine dateString with
  | None => unspecified
  | Some d => toLocaleDateString localize d
  end.

Definition formatRenewal (charging renewal : option string) : Text :=
  match computeRenewalDate engine charging renewal with
  | None => unspecified
  | Some d => toLocaleDateString localize d
  end.

End Display.

End UserDashboard.

(** ** src/unnamed/part_000: the Dashboard component *)

Module Dashboard.
Import JS.

(** A row of the two status columns [fetchStats] counts by.  The third
    column it selects, [monthly_price], feeds a floating-point sum that is
    not modelled. *)
Record Row : Type := mkRow {
  payment_status : Text;
  renewal_status : Text
}.

(** [customers?.length || 0]; [None] is the [null] the store may answer
    with. *)
Definition totalCustomers (customers : option (list Row)) : Z :=
  match customers with
  | None => 0
  | Some l => Z.of_nat (List.length l)
  end.

Definition paidCustomers (customers : option (list Row)) : Z :=
  match customers with
  | None => 0
  | Some l =>
    Z.of_nat (List.length
                (filter (fun c => eqText (payment_status c)
                                         [0x62F; 0x641; 0x639]%N) l))
  end.

Definition renewedCustomers (customers : option (list Row)) : Z :=
  match customers with
  | None => 0
  | Some l =>
    Z.of_nat (List.length
                (filter (fun c => eqText (renewal_status c) [0x62A; 0x645]%N)
                        l))
  end.

End Dashboard.

(** ** src/components/AdminDashboard.tsx *)

Module AdminDashboard.

Section Handlers.

Variable Customer : Type.

(** The three pieces of React state of the component. *)
Record State : Type := mkState {
  activeTab : string;
  showForm : bool;
  editingCustomer : option Customer
}.

Definition initial : State := mkState "dashboard" false None.

Definition handleAddCustomer (st : State) : State :=
  mkState "customers" true None.

Definition handleEditCustomer (customer : Customer) (st : State) : State :=
  mkState (activeTab st) true (Some customer).

Definition handleSaveCustomer (st : State) : State :=
  mkState (activeTab st) false None.

Definition handleCancelForm (st : State) : State :=
  mkState (activeTab st) false None.

(** [setActiveTab], the [onValueChange] of the tabs. *)
Definition setActiveTab (value : string) (st : State) : State :=
  mkState value (showForm st) (editingCustomer st).

(** What the user can do to the component. *)
Inductive Event : Type :=
| AddCustomer : Event
| EditCustomer : Customer -> Event
| SaveCustomer : Event
| CancelForm : Event
| ChangeTab : string -> Event.

Definition handle (e : Event) (st : State) : State :=
  match e with
  | AddCustomer => handleAddCustomer st
  | EditCustomer c => handleEditCustomer c st
  | SaveCustomer => handleSaveCustomer st
  | CancelForm => handleCancelForm st
  | ChangeTab v => setActiveTab v st
  end.

(** What is on the page in a state.  The floating add button always is;
    the form, with its save and cancel, only while [showForm]; the tabs
    only otherwise, with their two triggers, and the table with its add
    and edit buttons only in the content of the ["customers"] tab. *)
Definition offered (e : Event) (st : State) : bool :=
  match e with
  | AddCustomer => true
  | EditCustomer _ =>
    negb (showForm st) && String.eqb (activeTab st) "customers"
  | SaveCustomer | CancelForm => showForm st
  | ChangeTab v =>
    negb (showForm st)
    && (String.eqb v "dashboard" || String.eqb v "customers")
  end.

(** The state after a sequence of events, the oldest first. *)
Definition run (es : list Event) (st : State) : State :=
  fold_left (fun st e => handle e st) es st.

(** Every event of the sequence is offered when it happens. *)
Fixpoint possible (es : list Event) (st : State) : bool :=
  match es with
  | [] => true
  | e :: es' => offered e st && possible es' (handle e st)
  end.

End Handlers.

Arguments mkState {Customer} activeTab showForm editingCustomer.
Arguments activeTab {Customer} s.
Arguments showForm {Customer} s.
Arguments editingCustomer {Customer} s.
Arguments initial {Customer}.
Arguments handle {Customer} e st.
Arguments offered {Customer} e st.
Arguments run {Customer} es st.
Arguments possible {Customer} es st.
Arguments AddCustomer {Customer}.
Arguments EditCustomer {Customer} _.
Arguments SaveCustomer {Customer}.
Arguments CancelForm {Customer}.
Arguments ChangeTab {Customer} _.

End AdminDashboard.

(** ** Vocabulary of the specification *)

Module Spec.
Import JS.

(** What it means for an anchored pattern to match the whole of a string:
    the string splits into one run per piece, each of a permitted length
    and made of characters of the piece's class. *)
Inductive Matches (ic : bool) : list Piece -> list ascii -> Prop :=
| Matches_nil : Matches ic [] []
| Matches_cons (p : Piece) (ps : list Piece) (pre rest : list ascii) :
    (lo p <= List.length pre <= hi p)%nat ->
    forallb (classMatches ic (cls p)) pre = true ->
    Matches ic ps rest ->
    Matches ic (p :: ps) (pre ++ rest).

(** A Date object holds a calendar date when its time value is a number. *)
Definition valid (d : Date) : bool := negb (isNaN (getTime d)).

(** Year, month (1-12) and day of month of a Date in UTC. *)
Definition utcYMD (d : Date) : option (Z * Z * Z) :=
  match getTime d with
  | NaN => None
  | Num t => Some (YearFromTime t, MonthFromTime t + 1, DateFromTime t)
  end.

(** The calendar date [y]-[m]-[d], anchored to UTC midnight.  For a [d]
    that is not a day of the month it is the day reached by counting on
    from the first of the month, the way the Date constructors carry. *)
Definition CalendarDate (y m d : Z) : Date :=
  mkDate (Num (MakeDate (MakeDay y (m - 1) d) 0)).

(** A Date moved by [n] calendar days in UTC: the day number grows by [n]
    and the time within the day stays.  Nothing comes of an Invalid Date,
    and a result outside the range of time values is an Invalid Date. *)
Definition plusDays (d : Date) (n : Z) : Date :=
  match getTime d with
  | NaN => mkDate NaN
  | Num t => mkDate (TimeClip (Num (MakeDate (Day t + n) (TimeWithinDay t))))
  end.

(** [m] is a month and [d] one of its days in year [y]. *)
Definition realDay (y m d : Z) : Prop :=
  1 <= m <= 12 /\ 1 <= d <= DaysInMonth y m.

Definition allDigits (s : string) : bool := forallb isDigit (chars s).
Definition allWord (s : string) : bool := forallb isWord (chars s).

(** Three numerals of [n1], [n2] and [n3] digits with [sep] between them. *)
Definition threeNumerals (n1 n2 n3 : nat) (sep a b c : string) (s : string)
  : Prop :=
  s = (a ++ sep ++ b ++ sep ++ c)%string /\
  String.length a = n1 /\ String.length b = n2 /\ String.length c = n3 /\
  allDigits a = true /\ allDigits b = true /\ allDigits c = true.

(** The pattern of three numerals, as the helpers write it. *)
Definition threeNumeralsPattern (n1 n2 n3 : nat) (sep : ascii) : RegExp :=
  mkRegExp [ mkPiece Digit n1 n1 false; lit sep; mkPiece Digit n2 n2 false;
             lit sep; mkPiece Digit n3 n3 false ] false.

(** One or two digits, a hyphen and three word characters. *)
Definition dayMon (d mon : string) (s : string) : Prop :=
  s = (d ++ "-" ++ mon)%string /\
  (String.length d = 1 \/ String.length d = 2)%nat /\ allDigits d = true /\
  String.length mon = 3%nat /\ allWord mon = true.

(** The number a string of digits denotes. *)
Definition numeral (s : string) : Z := decimalValue (chars s).

(** An engine that recognises no string of its own accord: whatever
    [Date_parse] hands to it is unrecognizable. *)
Definition strictEngine : string -> Number := fun _ => NaN.

(** An engine that reads [M/D/YYYY], month first, the way the common
    engines do; it stands in the UTC time zone. *)
Definition monthFirstEngine : string -> Number := fun s =>
  match matchPieces false
          [ mkPiece Digit 1 2 true; lit "/"; mkPiece Digit 1 2 true; lit "/";
            mkPiece Digit 4 4 true ] (chars s) with
  | Some [m; d; y] =>
    Date_UTC (Num (decimalValue y)) (Num (decimalValue m - 1))
             (Num (decimalValue d))
  | _ => NaN
  end.

Section Rules.

Variable engine : string -> Number.

(** The generic fallback: the general-purpose parser of the language, and
    "unparseable" when it yields no valid date. *)
Definition genericFallback (s : string) : option Date :=
  let d := newDateOfString engine s in
  if valid d then Some d else None.

(** A format either does not recognise a string ([None]) or settles the
    result of parsing it. *)
Definition Format : Type := string -> option (option Date).

Definition isoFormat : Format := fun s =>
  if test CustomerTable.iso s
  then Some (Some (newDateOfString engine (s ++ "T00:00:00Z")))
  else None.

Definition slashYearFirstFormat : Format := fun s =>
  if test CustomerTable.ymdSlash s
  then Some (Some (newDateOfString engine
                     (replaceAllChar "/" "-" s ++ "T00:00:00Z")))
  else None.

Definition slashDayFirstFormat : Format := fun s =>
  if test CustomerTable.dmySlash s
  then Some (Some (newDateOfString engine
                     (substring 6 4 s ++ "-" ++ substring 3 2 s ++ "-"
                      ++ substring 0 2 s ++ "T00:00:00Z")))
  else None.

(** Day and abbreviated month: one or two digits, a hyphen, and three
    word characters that name a month of the table. *)
Definition dayMonthFormat : Format := fun s =>
  match match_ s CustomerTable.dMon with
  | Some m =>
    match property CustomerTable.map (toLowerCase (element 2 m)) with
    | Some month =>
      Some (Some (newDateOfNumber
                    (Date_UTC (Num 2025) (Num (month - 1))
                              (Num (numeral (element 1 m))))))
    | None => None
    end
  | None => None
  end.

Definition fallbackFormat : Format := fun s => Some (genericFallback s).

(** The first format of the list that recognises [s] settles the result. *)
Fixpoint firstMatch (fs : list Format) (s : string) : option Date :=
  match fs with
  | [] => None
  | f :: fs' => match f s with
                | Some r => r
                | None => firstMatch fs' s
                end
  end.

Definition precedence : list Format :=
  [ isoFormat; slashYearFirstFormat; slashDayFirstFormat; dayMonthFormat;
    fallbackFormat ].

End Rules.

End Spec.

(** ** Calendar arithmetic of time values *)

Section Calendar.
Import JS.

Lemma DayFromYear_succ (y : Z) :
  DayFromYear (y + 1) = DayFromYear y + DaysInYear y.
Proof.
  unfold DayFromYear, DaysInYear.
  destruct (Z.eqb_spec (y mod 4) 0), (Z.eqb_spec (y mod 100) 0),
    (Z.eqb_spec (y mod 400) 0); cbn [negb];
    Z.div_mod_to_equations; lia.
Qed.

Lemma DaysInYear_cases (y : Z) : DaysInYear y = 365 \/ DaysInYear y = 366.
Proof.
  unfold DaysInYear.
  destruct (y mod 4 =? 0), (y mod 100 =? 0), (y mod 400 =? 0); cbn; lia.
Qed.

Lemma yearFromDay_spec (d : Z) :
  DayFromYear (yearFromDay d) <= d < DayFromYear (yearFromDay d + 1).
Proof.
  unfold yearFromDay, DayFromYear.
  Z.div_mod_to_equations. lia.
Qed.

Lemma DayFromYear_mono (y y' : Z) : y <= y' -> DayFromYear y <= DayFromYear y'.
Proof.
  intros H. unfold DayFromYear. Z.div_mod_to_equations. lia.
Qed.

Lemma yearFromDay_unique (y d : Z) :
  DayFromYear y <= d < DayFromYear (y + 1) -> yearFromDay d = y.
Proof.
  intros [Hlo Hhi].
  pose proof (yearFromDay_spec d) as [Hlo' Hhi'].
  destruct (Z.lt_trichotomy (yearFromDay d) y) as [Hlt | [Heq | Hgt]]; auto.
  - pose proof (DayFromYear_mono (yearFromDay d + 1) y ltac:(lia)). lia.
  - pose proof (DayFromYear_mono (y + 1) (yearFromDay d) ltac:(lia)). lia.
Qed.

(** [YearFromTime] is what ECMA-262 defines: the largest year that starts
    no later than [t]. *)
Lemma YearFromTime_largest (t : Z) :
  TimeFromYear (YearFromTime t) <= t /\
  forall y, TimeFromYear y <= t -> y <= YearFromTime t.
Proof.
  unfold TimeFromYear, YearFromTime, Day, msPerDay.
  pose proof (yearFromDay_spec (t / 86400000)) as [Hlo Hhi].
  split.
  - Z.div_mod_to_equations. lia.
  - intros y Hy.
    destruct (Z.le_gt_cases y (yearFromDay (t / 86400000))) as [|Hgt]; auto.
    pose proof (DayFromYear_mono (yearFromDay (t / 86400000) + 1) y ltac:(lia)).
    Z.div_mod_to_equations. lia.
Qed.

Lemma Day_MakeDate (day time : Z) :
  0 <= time < msPerDay ->
  Day (MakeDate day time) = day /\ TimeWithinDay (MakeDate day time) = time.
Proof.
  unfold Day, TimeWithinDay, MakeDate, msPerDay. intros H.
  Z.div_mod_to_equations. lia.
Qed.

Lemma leapFlag_DaysInYear (y : Z) : DaysInYear y = 365 + leapFlag y.
Proof.
  unfold leapFlag. destruct (DaysInYear_cases y) as [-> | ->]; reflexivity.
Qed.


Lemma month_cases (m : Z) :
  1 <= m <= 12 ->
  m = 1 \/ m = 2 \/ m = 3 \/ m = 4 \/ m = 5 \/ m = 6 \/ m = 7 \/
  m = 8 \/ m = 9 \/ m = 10 \/ m = 11 \/ m = 12.
Proof. lia. Qed.

(** The table of [MonthFromTime] and the first days of the months agree. *)
Lemma monthStart_bounds (l m d : Z) :
  0 <= l <= 1 -> 1 <= m <= 12 ->
  1 <= d <= match m with 2 => 28 + l | 4 | 6 | 9 | 11 => 30 | _ => 31 end ->
  0 <= monthStart (m - 1) l + d - 1 < 365 + l /\
  monthOfYearDay (monthStart (m - 1) l + d - 1) l = m - 1.
Proof.
  intros Hl Hm Hd. unfold monthOfYearDay.
  pose proof (month_cases m Hm) as Hc.
  repeat destruct Hc as [-> | Hc]; try subst m; cbv beta iota in Hd;
    match goal with
    | |- context [monthStart ?a l] =>
      let v := eval compute in a in change a with v
    end;
    cbv beta iota delta [monthStart];
    (split; [lia|]);
    repeat match goal with
           | |- context [?a <? ?b] => destruct (Z.ltb_spec a b); try lia
           end.
Qed.

(** The day number that [MakeDay] returns for a real day of the calendar
    reads back as the same year, month and day. *)
Lemma MakeDay_fields (y m d : Z) :
  1 <= m <= 12 -> 1 <= d <= DaysInMonth y m ->
  let t := MakeDate (MakeDay y (m - 1) d) 0 in
  YearFromTime t = y /\ MonthFromTime t = m - 1 /\ DateFromTime t = d
  /\ TimeWithinDay t = 0.
Proof.
  intros Hm Hd t.
  destruct (Day_MakeDate (MakeDay y (m - 1) d) 0 ltac:(unfold msPerDay; lia))
    as [HDay HTime]. fold t in HDay, HTime.
  assert (MakeDay y (m - 1) d
          = DayFromYear y + monthStart (m - 1) (leapFlag y) + d - 1) as HMake.
  { unfold MakeDay.
    replace ((m - 1) / 12) with 0 by (Z.div_mod_to_equations; lia).
    replace ((m - 1) mod 12) with (m - 1) by (Z.div_mod_to_equations; lia).
    now rewrite Z.add_0_r. }
  pose proof (leapFlag_DaysInYear y) as Hleap.
  assert (0 <= leapFlag y <= 1) as Hflag
      by (unfold leapFlag; destruct (DaysInYear y =? 366); lia).
  destruct (monthStart_bounds (leapFlag y) m d Hflag Hm Hd) as [Hms HmoY].
  assert (YearFromTime t = y) as HY.
  { unfold YearFromTime. rewrite HDay. apply yearFromDay_unique.
    rewrite DayFromYear_succ, HMake. lia. }
  assert (InLeapYear t = leapFlag y) as HL
      by (unfold InLeapYear, leapFlag; now rewrite HY).
  assert (DayWithinYear t = monthStart (m - 1) (leapFlag y) + d - 1) as HW
      by (unfold DayWithinYear; rewrite HDay, HY, HMake; lia).
  assert (MonthFromTime t = m - 1) as HM
      by (unfold MonthFromTime; now rewrite HW, HL).
  repeat split; auto.
  unfold DateFromTime. rewrite HM, HL, HW. lia.
Qed.

Lemma DaysInMonth_lower (y m : Z) : 28 <= DaysInMonth y m.
Proof.
  unfold DaysInMonth.
  assert (0 <= leapFlag y)
    by (unfold leapFlag; destruct (DaysInYear y =? 366); lia).
  destruct m as [|p|p]; try lia.
  do 4 (try destruct p as [p|p|]; try lia).
Qed.

(** The first day of a month is the time value that [MakeDay] is defined
    from: the closed form of [MakeDay] is the one ECMA-262 asks for. *)
Lemma MakeDay_first_of_month (year month : Z) :
  let ym := year + month / 12 in
  let mn := month mod 12 in
  let t := MakeDate (MakeDay year month 1) 0 in
  YearFromTime t = ym /\ MonthFromTime t = mn /\ DateFromTime t = 1 /\
  forall dt, MakeDay year month dt = Day t + dt - 1.
Proof.
  intros ym mn t.
  assert (0 <= mn < 12) as Hmn by (subst mn; Z.div_mod_to_equations; lia).
  assert (MakeDay year month 1 = MakeDay ym (mn + 1 - 1) 1) as HE.
  { unfold MakeDay. replace (mn + 1 - 1) with mn by lia.
    replace (mn / 12) with 0 by (Z.div_mod_to_equations; lia).
    replace (mn mod 12) with mn by (Z.div_mod_to_equations; lia).
    now rewrite Z.add_0_r. }
  assert (1 <= 1 <= DaysInMonth ym (mn + 1)) as Hd.
  { pose proof (DaysInMonth_lower ym (mn + 1)). lia. }
  destruct (MakeDay_fields ym (mn + 1) 1 ltac:(lia) Hd) as (HY & HM & HD & _).
  subst t. rewrite HE. repeat split; auto; try lia.
  intros dt.
  destruct (Day_MakeDate (MakeDay ym (mn + 1 - 1) 1) 0
              ltac:(unfold msPerDay; lia)) as [-> _].
  rewrite <- HE. unfold MakeDay. lia.
Qed.

Lemma monthOfYearDay_range (dwy leap : Z) : 0 <= monthOfYearDay dwy leap <= 11.
Proof.
  unfold monthOfYearDay.
  repeat match goal with
         | |- context [?a <? ?b] => destruct (a <? b)
         end; lia.
Qed.

(** Setting the day of the month to [n] more than it is moves the time
    value by [n] days, whatever month or year that leads into. *)
Lemma MakeDay_shifted (t n : Z) :
  MakeDay (YearFromTime t) (MonthFromTime t) (DateFromTime t + n) = Day t + n.
Proof.
  pose proof (monthOfYearDay_range (DayWithinYear t) (InLeapYear t)) as HM.
  fold (MonthFromTime t) in HM.
  unfold MakeDay.
  replace (MonthFromTime t / 12) with 0 by (Z.div_mod_to_equations; lia).
  replace (MonthFromTime t mod 12) with (MonthFromTime t)
    by (Z.div_mod_to_equations; lia).
  rewrite Z.add_0_r. unfold DateFromTime.
  change (leapFlag (YearFromTime t)) with (InLeapYear t).
  unfold DayWithinYear. lia.
Qed.

Lemma MakeDate_shifted (t n : Z) :
  MakeDate (Day t + n) (TimeWithinDay t) = t + n * msPerDay.
Proof.
  unfold MakeDate, Day, TimeWithinDay, msPerDay.
  Z.div_mod_to_equations. lia.
Qed.

Lemma Day_shifted (t n : Z) :
  Day (t + n * msPerDay) = Day t + n /\
  TimeWithinDay (t + n * msPerDay) = TimeWithinDay t.
Proof.
  unfold Day, TimeWithinDay, msPerDay. Z.div_mod_to_equations. lia.
Qed.

Lemma TimeClip_in_range (t : Z) :
  Z.abs t <= maxTime -> TimeClip (Num t) = Num t.
Proof.
  intros H. cbn [TimeClip].
  destruct (Z.gtb_spec (Z.abs t) maxTime); [lia | reflexivity].
Qed.

Lemma TimeClip_range (n : Number) (t : Z) :
  TimeClip n = Num t -> n = Num t /\ Z.abs t <= maxTime.
Proof.
  destruct n as [|z]; cbn; [discriminate|].
  destruct (Z.gtb_spec (Z.abs z) maxTime); [discriminate|].
  intros [= ->]. split; [reflexivity | lia].
Qed.

End Calendar.

(** ** Strings and patterns *)

Section Patterns.
Import JS Spec.

Lemma chars_app (a b : string) : chars (a ++ b) = (chars a ++ chars b)%list.
Proof.
  unfold chars. induction a as [|c a IH]; cbn; [reflexivity | now rewrite IH].
Qed.

Lemma str_chars (s : string) : str (chars s) = s.
Proof. apply string_of_list_ascii_of_string. Qed.

Lemma chars_str (l : list ascii) : chars (str l) = l.
Proof. apply list_ascii_of_string_of_list_ascii. Qed.

Lemma length_chars (s : string) : List.length (chars s) = String.length s.
Proof.
  unfold chars. induction s as [|c s IH]; cbn; [reflexivity | now rewrite IH].
Qed.

Lemma firstSome_Some {A B : Type} (f : A -> option B) (l : list A) (b : B) :
  firstSome f l = Some b -> exists a, In a l /\ f a = Some b.
Proof.
  induction l as [|a l IH]; cbn; [discriminate|].
  destruct (f a) eqn:E.
  - intros [= <-]. exists a. auto.
  - intros H. destruct (IH H) as (a' & Hin & Hf). exists a'. auto.
Qed.

Lemma firstSome_not_None {A B : Type} (f : A -> option B) (l : list A) (a : A) :
  In a l -> f a <> None -> firstSome f l <> None.
Proof.
  induction l as [|a' l IH]; cbn; [tauto|].
  intros [-> | Hin] Hf.
  - destruct (f a); [discriminate | contradiction].
  - destruct (f a'); [discriminate | auto].
Qed.

Lemma In_counts (p : Piece) (k : nat) :
  In k (counts p) <-> (lo p <= k <= hi p)%nat.
Proof.
  unfold counts. rewrite <- in_rev, in_seq. lia.
Qed.

Lemma matchPieces_sound (ic : bool) (ps : list Piece) :
  forall s caps, matchPieces ic ps s = Some caps -> Matches ic ps s.
Proof.
  induction ps as [|p ps IH]; intros s caps; cbn.
  - destruct s; [constructor | discriminate].
  - intros H. apply firstSome_Some in H. destruct H as (k & Hin & Hk).
    apply In_counts in Hin. unfold attempt in Hk.
    destruct (Nat.eqb_spec (List.length (firstn k s)) k) as [Hlen|];
      [|discriminate].
    destruct (forallb (classMatches ic (cls p)) (firstn k s)) eqn:Hall;
      [|discriminate].
    cbn in Hk.
    destruct (matchPieces ic ps (skipn k s)) as [caps'|] eqn:Hrest;
      [|discriminate].
    rewrite <- (firstn_skipn k s).
    constructor; [lia | assumption | eauto].
Qed.

Lemma matchPieces_complete (ic : bool) (ps : list Piece) (s : list ascii) :
  Matches ic ps s -> matchPieces ic ps s <> None.
Proof.
  induction 1 as [|p ps pre rest Hlen Hall _ IH]; cbn; [discriminate|].
  apply firstSome_not_None with (a := List.length pre).
  - now apply In_counts.
  - unfold attempt.
    rewrite firstn_app, Nat.sub_diag, firstn_all, firstn_O, app_nil_r.
    rewrite Nat.eqb_refl, Hall. cbn.
    rewrite skipn_app, Nat.sub_diag, skipn_all. cbn.
    destruct (matchPieces ic ps rest); [discriminate | contradiction].
Qed.

(** [re.test(s)] holds exactly of the strings the pattern describes. *)
Lemma test_Matches (re : RegExp) (s : string) :
  test re s = true <-> Matches (ignoreCase re) (pieces re) (chars s).
Proof.
  unfold test. split.
  - destruct (matchPieces _ _ _) eqn:E; [|discriminate].
    intros _. eapply matchPieces_sound; eauto.
  - intros H. apply matchPieces_complete in H.
    destruct (matchPieces _ _ _); [reflexivity | contradiction].
Qed.

Lemma str_app (a b : list ascii) : str (a ++ b) = (str a ++ str b)%string.
Proof.
  unfold str. induction a as [|c a IH]; cbn; [reflexivity | now rewrite IH].
Qed.

Lemma length_str (l : list ascii) : String.length (str l) = List.length l.
Proof. now rewrite <- length_chars, chars_str. Qed.

Lemma Matches_cons_inv
      (ic : bool) (p : Piece) (ps : list Piece) (s : list ascii) :
  Matches ic (p :: ps) s ->
  exists pre rest,
    s = (pre ++ rest)%list /\ (lo p <= List.length pre <= hi p)%nat /\
    forallb (classMatches ic (cls p)) pre = true /\ Matches ic ps rest.
Proof. inversion 1; subst; eauto 8. Qed.

Lemma Matches_nil_inv (ic : bool) (s : list ascii) : Matches ic [] s -> s = [].
Proof. now inversion 1. Qed.

Lemma code_inj (a b : ascii) : code a = code b -> a = b.
Proof.
  unfold code. intros H.
  rewrite <- (ascii_N_embedding a), <- (ascii_N_embedding b). now rewrite H.
Qed.

Lemma Lit_exact (a c : ascii) : classMatches false (Lit a) c = true -> c = a.
Proof.
  change (classMatches false (Lit a) c) with (code a =? code c)%N.
  intros H. apply N.eqb_eq in H. symmetry. now apply code_inj.
Qed.

(** Under the [i] flag a hyphen still matches the hyphen only. *)
Lemma hyphen_canonical (ic : bool) (c : ascii) :
  classMatches ic (Lit "-") c = true -> c = "-"%char.
Proof.
  destruct ic; [|apply Lit_exact].
  destruct c as [[] [] [] [] [] [] [] []]; vm_compute; congruence.
Qed.

Lemma Lit_run (ic : bool) (a : ascii) (pre : list ascii) :
  ic = false \/ a = "-"%char ->
  (1 <= List.length pre <= 1)%nat ->
  forallb (classMatches ic (Lit a)) pre = true ->
  pre = [a].
Proof.
  intros Hic Hlen Hall.
  destruct pre as [|c [|c' pre]]; cbn [List.length] in Hlen; try lia.
  cbn [forallb] in Hall. rewrite andb_true_r in Hall.
  destruct Hic as [-> | ->].
  - now rewrite (Lit_exact _ _ Hall).
  - now rewrite (hyphen_canonical _ _ Hall).
Qed.

Lemma Matches_lit_inv
      (ic : bool) (a : ascii) (ps : list Piece) (s : list ascii) :
  ic = false \/ a = "-"%char ->
  Matches ic (lit a :: ps) s ->
  exists rest, s = a :: rest /\ Matches ic ps rest.
Proof.
  intros Hic H. apply Matches_cons_inv in H.
  destruct H as (pre & rest & -> & Hlen & Hall & H).
  rewrite (Lit_run ic a pre Hic Hlen Hall). exists rest. now split.
Qed.

Lemma Matches_lit
      (ic : bool) (a : ascii) (ps : list Piece) (rest : list ascii) :
  Matches ic ps rest -> Matches ic (lit a :: ps) (a :: rest).
Proof.
  intros H. change (a :: rest) with ([a] ++ rest)%list.
  constructor; auto. cbn. now rewrite N.eqb_refl.
Qed.

(** The strings a pattern of three numerals describes. *)
Lemma threeNumerals_shape (n1 n2 n3 : nat) (sep : ascii) (s : string) :
  test (threeNumeralsPattern n1 n2 n3 sep) s = true <->
  exists a b c, threeNumerals n1 n2 n3 (String sep "") a b c s.
Proof.
  rewrite test_Matches. cbn [threeNumeralsPattern pieces ignoreCase].
  unfold threeNumerals, allDigits. split.
  - remember (chars s) as cs eqn:Hcs. intros H.
    apply Matches_cons_inv in H as (a & r & -> & La & Da & H).
    apply Matches_lit_inv in H as (r' & -> & H); auto.
    apply Matches_cons_inv in H as (b & r & -> & Lb & Db & H).
    apply Matches_lit_inv in H as (r' & -> & H); auto.
    apply Matches_cons_inv in H as (c & r & -> & Lc & Dc & H).
    apply Matches_nil_inv in H as ->.
    exists (str a), (str b), (str c).
    rewrite <- (str_chars s), <- Hcs, !length_str, !chars_str.
    cbn [lo hi cls] in *.
    repeat split; try lia; try assumption.
    rewrite app_nil_r.
    change (a ++ sep :: b ++ sep :: c)%list
      with (a ++ [sep] ++ b ++ [sep] ++ c)%list.
    now rewrite !str_app.
  - intros (a & b & c & -> & La & Lb & Lc & Da & Db & Dc).
    rewrite !chars_app. rewrite <- !length_chars in *.
    constructor; [cbn; lia | assumption |].
    apply Matches_lit.
    constructor; [cbn; lia | assumption |].
    apply Matches_lit.
    rewrite <- (app_nil_r (chars c)).
    constructor; [cbn; lia | assumption | constructor].
Qed.

(** *** Digits *)

Lemma digit_facts (c : ascii) :
  isDigit c = true ->
  isWord c = true /\ isWhiteSpace c = false /\
  Ascii.eqb c "-" = false /\ Ascii.eqb c "+" = false /\
  Ascii.eqb c "/" = false /\ 0 <= digitValue c <= 9.
Proof.
  destruct c as [[] [] [] [] [] [] [] []]; vm_compute;
    intuition congruence.
Qed.

Lemma allDigits_cons (c : ascii) (s : string) :
  allDigits (String c s) = true <-> isDigit c = true /\ allDigits s = true.
Proof. unfold allDigits. cbn. apply andb_true_iff. Qed.

Lemma allDigits_app (a b : string) :
  allDigits (a ++ b) = allDigits a && allDigits b.
Proof. unfold allDigits. now rewrite chars_app, forallb_app. Qed.

(** Two strings that start with a numeral and a non-digit agree on the
    numeral, on the non-digit and on what follows. *)
Lemma numeral_prefix_unique (a a' : string) (x x' : ascii) (r r' : string) :
  allDigits a = true -> allDigits a' = true ->
  isDigit x = false -> isDigit x' = false ->
  (a ++ String x r)%string = (a' ++ String x' r')%string ->
  a = a' /\ x = x' /\ r = r'.
Proof.
  revert a'. induction a as [|c a IH]; intros [|c' a'] Ha Ha' Hx Hx';
    cbn [append]; intros [= E1 E2].
  - auto.
  - subst x. apply allDigits_cons in Ha' as [Hc' _]. congruence.
  - subst x'. apply allDigits_cons in Ha as [Hc _]. congruence.
  - subst c'. apply allDigits_cons in Ha as [_ Ha].
    apply allDigits_cons in Ha' as [_ Ha'].
    destruct (IH a' Ha Ha' Hx Hx' E2) as (-> & -> & ->). auto.
Qed.

Lemma decimalValue_bounds (ds : list ascii) :
  forallb isDigit ds = true ->
  forall acc, 0 <= acc ->
  acc * 10 ^ Z.of_nat (List.length ds)
  <= fold_left (fun a c => 10 * a + digitValue c) ds acc
  < (acc + 1) * 10 ^ Z.of_nat (List.length ds).
Proof.
  induction ds as [|c ds IH]; intros Hd acc Hacc.
  - cbn. lia.
  - cbn [forallb] in Hd. apply andb_true_iff in Hd as [Hc Hd].
    destruct (digit_facts c Hc) as (_ & _ & _ & _ & _ & Hv).
    cbn [fold_left List.length].
    specialize (IH Hd (10 * acc + digitValue c) ltac:(lia)).
    rewrite Nat2Z.inj_succ, Z.pow_succ_r by lia.
    nia.
Qed.

(** A numeral of [n] digits denotes a number below [10 ^ n]. *)
Lemma numeral_bounds (s : string) :
  allDigits s = true -> 0 <= numeral s < 10 ^ Z.of_nat (String.length s).
Proof.
  intros H. unfold numeral, decimalValue.
  pose proof (decimalValue_bounds (chars s) H 0 ltac:(lia)) as B.
  rewrite length_chars in B. lia.
Qed.

(** On a numeral, [parseInt] returns the number it denotes. *)
Lemma parseInt10_numeral (s : string) :
  s <> EmptyString -> allDigits s = true -> parseInt10 s = Num (numeral s).
Proof.
  destruct s as [|c s]; [congruence|]. intros _ H.
  pose proof H as H'. apply allDigits_cons in H' as [Hc Hs].
  destruct (digit_facts c Hc) as (_ & Hw & Hm & Hp & _ & _).
  unfold parseInt10, numeral. cbn [chars list_ascii_of_string dropWhile].
  rewrite Hw, Hm, Hp.
  assert (forall l, forallb isDigit l = true -> takeWhile isDigit l = l) as HT.
  { induction l as [|x l IH]; cbn; [reflexivity|].
    intros Hl. apply andb_true_iff in Hl as [-> Hl]. now rewrite IH. }
  fold (chars s). change (c :: chars s) with (chars (String c s)).
  rewrite (HT _ H). cbn [chars list_ascii_of_string].
  f_equal. lia.
Qed.

Lemma digits_not_sep (sep : ascii) (l : list ascii) :
  isDigit sep = false -> forallb isDigit l = true ->
  forallb (fun x => negb (Ascii.eqb x sep)) l = true.
Proof.
  intros Hsep. induction l as [|c l IH]; cbn; [reflexivity|].
  intros H. apply andb_true_iff in H as [Hc Hl]. rewrite (IH Hl), andb_true_r.
  destruct (Ascii.eqb_spec c sep); [congruence | reflexivity].
Qed.

(** *** split and replace on numerals *)

Lemma splitChars_last (sep : ascii) (a : list ascii) :
  forallb (fun x => negb (Ascii.eqb x sep)) a = true ->
  splitChars sep a = [a].
Proof.
  induction a as [|c a IH]; cbn; [reflexivity|].
  intros H. apply andb_true_iff in H as [Hc Ha].
  apply negb_true_iff in Hc. now rewrite Hc, (IH Ha).
Qed.

Lemma splitChars_field (sep : ascii) (a rest : list ascii) :
  forallb (fun x => negb (Ascii.eqb x sep)) a = true ->
  splitChars sep (a ++ sep :: rest) = a :: splitChars sep rest.
Proof.
  induction a as [|c a IH]; cbn.
  - now rewrite Ascii.eqb_refl.
  - intros H. apply andb_true_iff in H as [Hc Ha].
    apply negb_true_iff in Hc. now rewrite Hc, (IH Ha).
Qed.

Lemma split_threeNumerals (a b c : string) :
  allDigits a = true -> allDigits b = true -> allDigits c = true ->
  split "/" (a ++ "/" ++ b ++ "/" ++ c) = [a; b; c].
Proof.
  unfold allDigits, split. intros Ha Hb Hc.
  rewrite !chars_app. cbn [chars list_ascii_of_string app].
  rewrite !splitChars_field, splitChars_last
    by (apply digits_not_sep; [reflexivity | assumption]).
  cbn [List.map]. now rewrite !str_chars.
Qed.

Lemma replaceAllChar_threeNumerals (a b c : string) :
  allDigits a = true -> allDigits b = true -> allDigits c = true ->
  replaceAllChar "/" "-" (a ++ "/" ++ b ++ "/" ++ c)
  = (a ++ "-" ++ b ++ "-" ++ c)%string.
Proof.
  unfold allDigits, replaceAllChar. intros Ha Hb Hc.
  set (f := fun x => if Ascii.eqb x "/" then "-"%char else x).
  assert (forall l, forallb isDigit l = true -> List.map f l = l) as Hid.
  { induction l as [|x l IH]; cbn; [reflexivity|].
    intros H. apply andb_true_iff in H as [Hx Hl]. unfold f at 1.
    destruct (digit_facts x Hx) as (_ & _ & _ & _ & -> & _).
    now rewrite (IH Hl). }
  rewrite !chars_app, !map_app. cbn [chars list_ascii_of_string List.map].
  rewrite !Hid by assumption. unfold f. cbn [Ascii.eqb].
  change (chars a ++ ["-"%char] ++ chars b ++ ["-"%char] ++ chars c)%list
    with (chars a ++ chars "-" ++ chars b ++ chars "-" ++ chars c)%list.
  now rewrite !str_app, !str_chars.
Qed.

(** *** Strings of a known length *)

Lemma length1 (s : string) :
  String.length s = 1%nat -> exists c1, s = String c1 "".
Proof. destruct s as [|c1 [|]]; try discriminate. eauto. Qed.

Lemma length2 (s : string) :
  String.length s = 2%nat -> exists c1 c2, s = String c1 (String c2 "").
Proof. destruct s as [|c1 [|c2 [|]]]; try discriminate. eauto. Qed.

Lemma length3 (s : string) :
  String.length s = 3%nat ->
  exists c1 c2 c3, s = String c1 (String c2 (String c3 "")).
Proof. destruct s as [|c1 [|c2 [|c3 [|]]]]; try discriminate. eauto. Qed.

Lemma length4 (s : string) :
  String.length s = 4%nat ->
  exists c1 c2 c3 c4, s = String c1 (String c2 (String c3 (String c4 ""))).
Proof.
  destruct s as [|c1 [|c2 [|c3 [|c4 [|]]]]]; try discriminate. eauto 6.
Qed.

Lemma length_append (a b : string) :
  String.length (a ++ b) = (String.length a + String.length b)%nat.
Proof. induction a as [|c a IH]; cbn; [reflexivity | now rewrite IH]. Qed.

Lemma append_assoc (a b c : string) : ((a ++ b) ++ c = a ++ b ++ c)%string.
Proof. induction a as [|x a IH]; cbn; [reflexivity | now rewrite IH]. Qed.

(** The day-first pattern fixes the positions of its three fields. *)
Lemma substring_dayFirst (a b c s : string) :
  threeNumerals 2 2 4 "/" a b c s ->
  substring 0 2 s = a /\ substring 3 2 s = b /\ substring 6 4 s = c.
Proof.
  intros (-> & La & Lb & Lc & _).
  apply length2 in La as (a1 & a2 & ->).
  apply length2 in Lb as (b1 & b2 & ->).
  apply length4 in Lc as (c1 & c2 & c3 & c4 & ->).
  repeat split.
Qed.

(** *** Symbolic evaluation of the matcher *)

Lemma matchPieces_run (ic : bool) (k : CharClass) (n : nat) (g : bool)
      (ps : list Piece) (pre rest : list ascii) :
  List.length pre = n -> forallb (classMatches ic k) pre = true ->
  matchPieces ic (mkPiece k n n g :: ps) (pre ++ rest)
  = match matchPieces ic ps rest with
    | Some caps => Some (if g then pre :: caps else caps)
    | None => None
    end.
Proof.
  intros Hlen Hall. cbn [matchPieces]. unfold counts. cbn [lo hi cls group].
  replace (S n - n)%nat with 1%nat by lia. cbn [seq rev app firstSome].
  subst n. unfold attempt. cbn [cls group].
  rewrite firstn_app, Nat.sub_diag, firstn_all, firstn_O, app_nil_r.
  rewrite Nat.eqb_refl, Hall. cbn [andb].
  rewrite skipn_app, Nat.sub_diag, skipn_all. cbn [skipn app].
  now destruct (matchPieces ic ps rest).
Qed.

Lemma matchPieces_lit (ic : bool) (a : ascii) (ps : list Piece)
      (rest : list ascii) :
  matchPieces ic (lit a :: ps) (a :: rest) = matchPieces ic ps rest.
Proof.
  change (a :: rest) with ([a] ++ rest)%list. unfold lit.
  rewrite matchPieces_run;
    [now destruct (matchPieces ic ps rest) | reflexivity |].
  cbn. now rewrite N.eqb_refl.
Qed.

(** *** The patterns exclude one another *)

Lemma threeNumerals_unique
      (n1 n2 n3 n1' n2' n3' : nat) (x x' : ascii) (a b c a' b' c' s : string) :
  isDigit x = false -> isDigit x' = false ->
  threeNumerals n1 n2 n3 (String x "") a b c s ->
  threeNumerals n1' n2' n3' (String x' "") a' b' c' s ->
  x = x' /\ a = a' /\ b = b' /\ c = c'.
Proof.
  intros Hx Hx' (-> & _ & _ & _ & Da & Db & _) (E & _ & _ & _ & Da' & Db' & _).
  cbn [append] in E.
  apply numeral_prefix_unique in E as (-> & -> & E); auto.
  apply numeral_prefix_unique in E as (-> & _ & ->); auto.
Qed.

Lemma threeNumerals_length
      (n1 n2 n3 : nat) (x : ascii) (a b c s : string) :
  threeNumerals n1 n2 n3 (String x "") a b c s ->
  String.length s = (n1 + n2 + n3 + 2)%nat.
Proof.
  intros (-> & <- & <- & <- & _). rewrite !length_append. cbn. lia.
Qed.

Lemma not_true_false (b : bool) : (b = true -> False) -> b = false.
Proof. destruct b; [intros H; now destruct H | reflexivity]. Qed.

Lemma ymdSlash_not_iso (s : string) :
  test CustomerTable.ymdSlash s = true -> test CustomerTable.iso s = false.
Proof.
  intros H. apply not_true_false. intros H'.
  apply (threeNumerals_shape 4 2 2 "/") in H as (a & b & c & H).
  apply (threeNumerals_shape 4 2 2 "-") in H' as (a' & b' & c' & H').
  destruct (threeNumerals_unique _ _ _ _ _ _ "/" "-" _ _ _ _ _ _ _
              eq_refl eq_refl H H') as (E & _).
  discriminate E.
Qed.

Lemma dmySlash_not_iso (s : string) :
  test CustomerTable.dmySlash s = true -> test CustomerTable.iso s = false.
Proof.
  intros H. apply not_true_false. intros H'.
  apply (threeNumerals_shape 2 2 4 "/") in H as (a & b & c & H).
  apply (threeNumerals_shape 4 2 2 "-") in H' as (a' & b' & c' & H').
  destruct (threeNumerals_unique _ _ _ _ _ _ "/" "-" _ _ _ _ _ _ _
              eq_refl eq_refl H H') as (E & _).
  discriminate E.
Qed.

Lemma dmySlash_not_ymdSlash (s : string) :
  test CustomerTable.dmySlash s = true -> test CustomerTable.ymdSlash s = false.
Proof.
  intros H. apply not_true_false. intros H'.
  apply (threeNumerals_shape 2 2 4 "/") in H as (a & b & c & H).
  apply (threeNumerals_shape 4 2 2 "/") in H' as (a' & b' & c' & H').
  destruct (threeNumerals_unique _ _ _ _ _ _ "/" "/" _ _ _ _ _ _ _
              eq_refl eq_refl H H') as (_ & E & _).
  destruct H as (_ & La & _), H' as (_ & La' & _). subst a'. congruence.
Qed.

(** *** The day and abbreviated-month pattern *)

Lemma allWord_cons (c : ascii) (s : string) :
  allWord (String c s) = true <-> isWord c = true /\ allWord s = true.
Proof. unfold allWord. cbn. apply andb_true_iff. Qed.

Lemma dMon_tail (ic : bool) (mon : list ascii) :
  List.length mon = 3%nat -> forallb isWord mon = true ->
  matchPieces ic [lit "-"; mkPiece Word 3 3 true] ("-"%char :: mon)
  = Some [mon].
Proof.
  intros L W. rewrite matchPieces_lit, <- (app_nil_r mon).
  rewrite matchPieces_run by assumption. now rewrite app_nil_r.
Qed.

Lemma dMon_list (d mon : list ascii) :
  (List.length d = 1 \/ List.length d = 2)%nat -> forallb isDigit d = true ->
  List.length mon = 3%nat -> forallb isWord mon = true ->
  matchPieces true (pieces CustomerTable.dMon) (d ++ "-"%char :: mon)
  = Some [d; mon].
Proof.
  intros Ld Dd Lm Wm.
  pose proof (dMon_tail true mon Lm Wm) as Htail.
  change (matchPieces true (pieces CustomerTable.dMon) (d ++ "-"%char :: mon))
    with (firstSome
            (attempt true (mkPiece Digit 1 2 true)
                     (matchPieces true [lit "-"; mkPiece Word 3 3 true])
                     (d ++ "-"%char :: mon))
            [2; 1]%nat).
  destruct d as [|d1 [|d2 [|d3 d]]]; cbn [List.length] in Ld; try lia;
    cbn [forallb] in Dd;
    repeat match goal with
           | H : _ && _ = true |- _ => apply andb_true_iff in H as [? H]
           end;
    unfold attempt;
    cbn [firstSome app firstn skipn List.length forallb classMatches cls group
         Nat.eqb];
    repeat match goal with H : isDigit _ = true |- _ => rewrite H end;
    change (isDigit "-") with false; cbn [andb]; now rewrite Htail.
Qed.

Lemma dMon_captures (d mon s : string) :
  dayMon d mon s -> match_ s CustomerTable.dMon = Some [s; d; mon].
Proof.
  intros (-> & Ld & Dd & Lm & Wm).
  unfold match_. cbn [CustomerTable.dMon ignoreCase].
  rewrite !chars_app. cbn [chars list_ascii_of_string app].
  fold (chars mon) (chars d).
  rewrite <- length_chars in Lm, Ld.
  rewrite (dMon_list (chars d) (chars mon)) by assumption.
  cbn [List.map]. now rewrite !str_chars.
Qed.

Lemma dMon_shape (s : string) :
  test CustomerTable.dMon s = true -> exists d mon, dayMon d mon s.
Proof.
  rewrite test_Matches. cbn [CustomerTable.dMon pieces ignoreCase].
  remember (chars s) as cs eqn:Hcs. intros H.
  apply Matches_cons_inv in H as (d & r & -> & Ld & Dd & H).
  apply Matches_lit_inv in H as (r' & -> & H); auto.
  apply Matches_cons_inv in H as (mon & r & -> & Lm & Wm & H).
  apply Matches_nil_inv in H as ->.
  exists (str d), (str mon). unfold dayMon, allDigits, allWord.
  rewrite <- (str_chars s), <- Hcs, !length_str, !chars_str.
  cbn [lo hi cls] in *.
  repeat split; try lia; try assumption.
  rewrite app_nil_r.
  change (d ++ "-"%char :: mon)%list with (d ++ chars "-" ++ mon)%list.
  now rewrite !str_app.
Qed.

Lemma match_dMon_inv (s : string) (m : list string) :
  match_ s CustomerTable.dMon = Some m ->
  exists d mon, dayMon d mon s /\ m = [s; d; mon].
Proof.
  intros H.
  assert (test CustomerTable.dMon s = true) as Ht.
  { unfold test. unfold match_ in H.
    now destruct (matchPieces _ _ _). }
  destruct (dMon_shape s Ht) as (d & mon & Hs).
  exists d, mon. split; [assumption|].
  rewrite (dMon_captures d mon s Hs) in H. congruence.
Qed.

Lemma match_dMon_None (s : string) :
  match_ s CustomerTable.dMon = None <-> test CustomerTable.dMon s = false.
Proof.
  unfold match_, test. destruct (matchPieces _ _ _); split; congruence.
Qed.

(** *** The table of month abbreviations *)

Lemma property_In (obj : list (string * Z)) (k : string) (v : Z) :
  property obj k = Some v -> In (k, v) obj.
Proof.
  induction obj as [|[k' v'] obj IH]; cbn; [discriminate|].
  destruct (String.eqb_spec k' k) as [-> | _].
  - intros [= ->]. auto.
  - auto.
Qed.

Lemma map_months (k : string) (v : Z) :
  property CustomerTable.map k = Some v ->
  1 <= v <= 12 /\ truthy v = true /\ String.length k = 3%nat /\
  forallb (fun c => between 97 122 (code c)) (chars k) = true.
Proof.
  intros H. apply property_In in H.
  assert (forallb (fun kv : string * Z =>
                     (1 <=? snd kv) && (snd kv <=? 12) && truthy (snd kv)
                     && (String.length (fst kv) =? 3)%nat
                     && forallb (fun c => between 97 122 (code c))
                                (chars (fst kv)))
                  CustomerTable.map = true) as Hall by reflexivity.
  rewrite forallb_forall in Hall. specialize (Hall _ H). cbn [fst snd] in Hall.
  apply andb_true_iff in Hall as [Hall Hletters].
  apply andb_true_iff in Hall as [Hall Hlength].
  apply andb_true_iff in Hall as [Hall Htruthy].
  apply andb_true_iff in Hall as [Hlo Hhi].
  apply Nat.eqb_eq in Hlength. repeat split; auto; lia.
Qed.

Lemma toLowerChar_letter (c : ascii) :
  between 97 122 (code (toLowerChar c)) = true -> isWord c = true.
Proof.
  destruct c as [[] [] [] [] [] [] [] []]; vm_compute; congruence.
Qed.

(** A string whose lower-case form is in the table is made of three
    letters. *)
Lemma month_name_shape (mon : string) (v : Z) :
  property CustomerTable.map (toLowerCase mon) = Some v ->
  String.length mon = 3%nat /\ allWord mon = true.
Proof.
  intros H. apply map_months in H as (_ & _ & HL & HW).
  unfold toLowerCase in HL, HW.
  rewrite length_str, length_map, length_chars in HL.
  rewrite chars_str in HW. split; [assumption|].
  unfold allWord. induction (chars mon) as [|c l IH]; [reflexivity|].
  cbn [List.map forallb] in HW |- *.
  apply andb_true_iff in HW as [Hc Hl].
  now rewrite (toLowerChar_letter c Hc), (IH Hl).
Qed.

(** A day and abbreviated month is too short for a pattern of three
    numerals. *)
Lemma dayMon_not_numeric (d mon s : string) (n1 n2 n3 : nat) (x : ascii) :
  dayMon d mon s -> (6 < n1 + n2 + n3 + 2)%nat ->
  test (threeNumeralsPattern n1 n2 n3 x) s = false.
Proof.
  intros (-> & Ld & _ & Lm & _) Hn. apply not_true_false. intros H.
  apply threeNumerals_shape in H as (a & b & c & H).
  apply threeNumerals_length in H. rewrite !length_append, Lm in H.
  cbn in H. lia.
Qed.

(** A string of three numerals with slashes between them is recognised by
    a slash pattern only when the widths of its numerals are the
    pattern's, and by no hyphen pattern. *)
Lemma slashes_not_hyphens (d m y : string) (n1 n2 n3 : nat) :
  allDigits d = true -> allDigits m = true -> allDigits y = true ->
  test (threeNumeralsPattern n1 n2 n3 "-") (d ++ "/" ++ m ++ "/" ++ y)
  = false /\
  test CustomerTable.dMon (d ++ "/" ++ m ++ "/" ++ y) = false /\
  forall engine,
    Date_parse engine (d ++ "/" ++ m ++ "/" ++ y)
    = engine (d ++ "/" ++ m ++ "/" ++ y)%string.
Proof.
  intros Dd Dm Dy.
  assert (threeNumerals (String.length d) (String.length m) (String.length y)
                        "/" d m y (d ++ "/" ++ m ++ "/" ++ y)) as Hs
      by (repeat split; assumption).
  repeat split.
  - apply not_true_false. intros H.
    apply threeNumerals_shape in H as (a & b & c & H).
    destruct (threeNumerals_unique _ _ _ _ _ _ "/" "-" _ _ _ _ _ _ _
                eq_refl eq_refl Hs H) as (E & _).
    discriminate E.
  - apply not_true_false. intros H.
    apply dMon_shape in H as (d' & mon & E & _ & Dd' & _).
    cbn [append] in E.
    apply numeral_prefix_unique in E as (_ & E & _); auto. discriminate E.
  - intros engine. unfold Date_parse.
    destruct (matchPieces false utcMidnight _) as [caps|] eqn:E; [|reflexivity].
    exfalso. apply matchPieces_sound in E. unfold utcMidnight in E.
    apply Matches_cons_inv in E as (a & r & E & _ & Da & H).
    apply Matches_lit_inv in H as (r' & -> & _); auto.
    apply (f_equal str) in E. rewrite str_chars in E.
    change (a ++ "-"%char :: r')%list with (a ++ chars "-" ++ r')%list in E.
    rewrite !str_app in E. cbn [append str chars string_of_list_ascii
                                      list_ascii_of_string] in E.
    apply numeral_prefix_unique in E as (_ & E & _); auto.
    + discriminate E.
    + unfold allDigits. now rewrite chars_str.
Qed.

Lemma slashes_widths (d m y : string) (n1 n2 n3 : nat) :
  allDigits d = true -> allDigits m = true -> allDigits y = true ->
  test (threeNumeralsPattern n1 n2 n3 "/") (d ++ "/" ++ m ++ "/" ++ y) = true ->
  String.length d = n1 /\ String.length m = n2 /\ String.length y = n3.
Proof.
  intros Dd Dm Dy H.
  assert (threeNumerals (String.length d) (String.length m) (String.length y)
                        "/" d m y (d ++ "/" ++ m ++ "/" ++ y)) as Hs
      by (repeat split; assumption).
  apply threeNumerals_shape in H as (a & b & c & H).
  destruct (threeNumerals_unique _ _ _ _ _ _ "/" "/" _ _ _ _ _ _ _
              eq_refl eq_refl Hs H) as (_ & -> & -> & ->).
  destruct H as (_ & La & Lb & Lc & _). auto.
Qed.

End Patterns.






(** ** Date objects built from a date string *)

Section DateStrings.
Import JS Spec.

Variable engine : string -> Number.

(** [Date.parse] on the string the helpers build from a date of three
    numerals. *)
Lemma Date_parse_built (y m d s : string) :
  threeNumerals 4 2 2 "-" y m d s ->
  Date_parse engine (s ++ "T00:00:00Z")
  = if (1 <=? numeral m) && (numeral m <=? 12)
       && (1 <=? numeral d) && (numeral d <=? 31)
    then if numeral d <=? DaysInMonth (numeral y) (numeral m)
         then Num (MakeDate (MakeDay (numeral y) (numeral m - 1) (numeral d)) 0)
         else engine (s ++ "T00:00:00Z")
    else NaN.
Proof.
  intros (-> & Ly & Lm & Ld & Dy & Dm & Dd).
  unfold Date_parse.
  assert (matchPieces false utcMidnight
            (chars ((y ++ "-" ++ m ++ "-" ++ d) ++ "T00:00:00Z"))
          = Some [chars y; chars m; chars d]) as ->.
  { rewrite !chars_app. cbn [chars list_ascii_of_string].
    fold (chars y) (chars m) (chars d).
    rewrite <- !app_assoc. cbn [app]. unfold utcMidnight.
    rewrite <- length_chars in Ly, Lm, Ld.
    rewrite (matchPieces_run false Digit 4 true) by assumption.
    rewrite matchPieces_lit.
    rewrite (matchPieces_run false Digit 2 true) by assumption.
    rewrite matchPieces_lit.
    rewrite (matchPieces_run false Digit 2 true) by assumption.
    reflexivity. }
  reflexivity.
Qed.

Lemma CalendarDate_in_range (y m d : Z) :
  0 <= y <= 9999 -> realDay y m d ->
  Z.abs (MakeDate (MakeDay y (m - 1) d) 0) <= maxTime.
Proof.
  intros Hy [Hm Hd].
  assert (0 <= leapFlag y <= 1) as Hflag
      by (unfold leapFlag; destruct (DaysInYear y =? 366); lia).
  destruct (monthStart_bounds (leapFlag y) m d Hflag Hm Hd) as [Hms _].
  unfold MakeDate, MakeDay, maxTime, msPerDay.
  replace ((m - 1) / 12) with 0 by (Z.div_mod_to_equations; lia).
  replace ((m - 1) mod 12) with (m - 1) by (Z.div_mod_to_equations; lia).
  rewrite !Z.add_0_r.
  assert (-719528 <= DayFromYear y <= 2932532)
    by (unfold DayFromYear; Z.div_mod_to_equations; lia).
  lia.
Qed.

(** A calendar date reads back as its year, month and day. *)
Lemma utcYMD_CalendarDate (y m d : Z) :
  realDay y m d -> utcYMD (CalendarDate y m d) = Some (y, m, d).
Proof.
  intros [Hm Hd]. unfold utcYMD, CalendarDate. cbn [getTime].
  destruct (MakeDay_fields y m d Hm Hd) as (-> & -> & -> & _).
  do 3 f_equal. lia.
Qed.

(** The Date the helpers build from three numerals that name a real day
    is that calendar date. *)
Lemma newDateOfString_real (y m d s : string) :
  threeNumerals 4 2 2 "-" y m d s ->
  realDay (numeral y) (numeral m) (numeral d) ->
  newDateOfString engine (s ++ "T00:00:00Z")
  = CalendarDate (numeral y) (numeral m) (numeral d).
Proof.
  intros Hs Hreal. unfold newDateOfString.
  rewrite (Date_parse_built y m d s Hs).
  pose proof Hreal as [Hm Hd].
  pose proof (DaysInMonth_lower (numeral y) (numeral m)).
  assert (DaysInMonth (numeral y) (numeral m) <= 31) as Hup.
  { unfold DaysInMonth.
    assert (leapFlag (numeral y) <= 1)
      by (unfold leapFlag; destruct (DaysInYear _ =? 366); lia).
    destruct (month_cases _ Hm) as
        [->|[->|[->|[->|[->|[->|[->|[->|[->|[->|[->| ->]]]]]]]]]]]; lia. }
  replace (1 <=? numeral m) with true by (symmetry; apply Z.leb_le; lia).
  replace (numeral m <=? 12) with true by (symmetry; apply Z.leb_le; lia).
  replace (1 <=? numeral d) with true by (symmetry; apply Z.leb_le; lia).
  replace (numeral d <=? 31) with true by (symmetry; apply Z.leb_le; lia).
  replace (numeral d <=? DaysInMonth (numeral y) (numeral m)) with true
    by (symmetry; apply Z.leb_le; lia).
  cbn [andb]. unfold CalendarDate. f_equal.
  destruct Hs as (_ & Ly & _ & _ & Dy & _).
  pose proof (numeral_bounds y Dy) as By. rewrite Ly in By.
  change (10 ^ Z.of_nat 4) with 10000 in By.
  apply TimeClip_in_range, CalendarDate_in_range; [lia | assumption].
Qed.

(** A month outside 01-12 or a day outside 01-31 gives an Invalid Date. *)
Lemma newDateOfString_out_of_bounds (y m d s : string) :
  threeNumerals 4 2 2 "-" y m d s ->
  ~ (1 <= numeral m <= 12 /\ 1 <= numeral d <= 31) ->
  newDateOfString engine (s ++ "T00:00:00Z") = mkDate NaN.
Proof.
  intros Hs Hout. unfold newDateOfString.
  rewrite (Date_parse_built y m d s Hs).
  destruct (Z.leb_spec 1 (numeral m)), (Z.leb_spec (numeral m) 12),
    (Z.leb_spec 1 (numeral d)), (Z.leb_spec (numeral d) 31);
    cbn [andb]; try reflexivity.
  exfalso. apply Hout. lia.
Qed.

End DateStrings.


(** ** The parser as a list of formats *)

Section Parser.
Import JS Spec.

Variable engine : string -> Number.

Lemma dayFirst_parts (s : string) :
  test CustomerTable.dmySlash s = true ->
  let parts := split "/" s in
  element 0 parts = substring 0 2 s /\
  element 1 parts = substring 3 2 s /\
  element 2 parts = substring 6 4 s.
Proof.
  intros H.
  apply (threeNumerals_shape 2 2 4 "/") in H as (a & b & c & H).
  destruct (substring_dayFirst a b c s H) as (-> & -> & ->).
  destruct H as (-> & _ & _ & _ & Da & Db & Dc).
  cbv zeta. rewrite (split_threeNumerals a b c Da Db Dc). repeat split.
Qed.

(** The parser is the first format, in the order ISO, slash year-first,
    slash day-first, day and abbreviated month, generic fallback, that
    recognises the string. *)
Lemma parse_firstMatch (s : string) :
  s <> EmptyString ->
  CustomerTable.parseDateAssume2025 engine (Some s)
  = firstMatch (precedence engine) s.
Proof.
  intros Hne. destruct s as [|c0 s0]; [congruence|]. clear Hne.
  set (s := String c0 s0).
  unfold CustomerTable.parseDateAssume2025. fold s.
  unfold precedence. cbn [firstMatch].
  unfold isoFormat. destruct (test CustomerTable.iso s); [reflexivity|].
  unfold slashYearFirstFormat.
  destruct (test CustomerTable.ymdSlash s); [reflexivity|].
  unfold slashDayFirstFormat.
  destruct (test CustomerTable.dmySlash s) eqn:Hdmy.
  - destruct (dayFirst_parts s Hdmy) as (-> & -> & ->). reflexivity.
  - unfold dayMonthFormat, fallbackFormat, genericFallback, valid.
    destruct (match_ s CustomerTable.dMon) as [m|] eqn:Hm; [|reflexivity].
    apply match_dMon_inv in Hm as (d & mon & Hs & ->).
    cbn [element nth].
    destruct (property CustomerTable.map (toLowerCase mon)) as [month|] eqn:Hp;
      [|reflexivity].
    destruct (map_months _ _ Hp) as (_ & -> & _).
    destruct Hs as (_ & Ld & Dd & _).
    rewrite parseInt10_numeral; [reflexivity | | assumption].
    intros ->. cbn in Ld. lia.
Qed.

Lemma parse_iso (s : string) :
  test CustomerTable.iso s = true ->
  CustomerTable.parseDateAssume2025 engine (Some s)
  = Some (newDateOfString engine (s ++ "T00:00:00Z")).
Proof.
  intros H. destruct s as [|c s]; [vm_compute in H; discriminate H|].
  rewrite parse_firstMatch by discriminate.
  unfold precedence. cbn [firstMatch]. unfold isoFormat. now rewrite H.
Qed.

(** An ISO date with a month outside 01-12 or a day outside 01-31 comes
    back as an Invalid Date, not as [null]. *)
Lemma parse_iso_out_of_bounds (y m d : string) :
  threeNumerals 4 2 2 "-" y m d (y ++ "-" ++ m ++ "-" ++ d)%string ->
  ~ (1 <= numeral m <= 12 /\ 1 <= numeral d <= 31) ->
  CustomerTable.parseDateAssume2025 engine
    (Some (y ++ "-" ++ m ++ "-" ++ d)%string)
  = Some (mkDate NaN).
Proof.
  intros Hs Hout.
  rewrite parse_iso by (apply (threeNumerals_shape 4 2 2 "-"); eauto).
  now rewrite (newDateOfString_out_of_bounds engine y m d _ Hs Hout).
Qed.

Lemma parse_ymdSlash (s : string) :
  test CustomerTable.ymdSlash s = true ->
  CustomerTable.parseDateAssume2025 engine (Some s)
  = Some (newDateOfString engine (replaceAllChar "/" "-" s ++ "T00:00:00Z")).
Proof.
  intros H. pose proof (ymdSlash_not_iso s H) as Hiso.
  destruct s as [|c s]; [vm_compute in H; discriminate H|].
  rewrite parse_firstMatch by discriminate.
  unfold precedence. cbn [firstMatch].
  unfold isoFormat, slashYearFirstFormat. now rewrite Hiso, H.
Qed.

Lemma parse_dmySlash (s : string) :
  test CustomerTable.dmySlash s = true ->
  CustomerTable.parseDateAssume2025 engine (Some s)
  = Some (newDateOfString engine
            (substring 6 4 s ++ "-" ++ substring 3 2 s ++ "-"
             ++ substring 0 2 s ++ "T00:00:00Z")).
Proof.
  intros H. pose proof (dmySlash_not_iso s H) as Hiso.
  pose proof (dmySlash_not_ymdSlash s H) as Hymd.
  destruct s as [|c s]; [vm_compute in H; discriminate H|].
  rewrite parse_firstMatch by discriminate.
  unfold precedence. cbn [firstMatch].
  unfold isoFormat, slashYearFirstFormat, slashDayFirstFormat.
  now rewrite Hiso, Hymd, H.
Qed.

(** What the parser does once the three numeric patterns have failed. *)
Lemma parse_not_numeric (s : string) :
  s <> EmptyString ->
  test CustomerTable.iso s = false ->
  test CustomerTable.ymdSlash s = false ->
  test CustomerTable.dmySlash s = false ->
  CustomerTable.parseDateAssume2025 engine (Some s)
  = match dayMonthFormat s with
    | Some r => r
    | None => genericFallback engine s
    end.
Proof.
  intros Hne Hiso Hymd Hdmy.
  rewrite parse_firstMatch by assumption.
  unfold precedence. cbn [firstMatch].
  unfold isoFormat, slashYearFirstFormat, slashDayFirstFormat, fallbackFormat.
  now rewrite Hiso, Hymd, Hdmy.
Qed.

Lemma dayMon_nonempty (d mon s : string) : dayMon d mon s -> s <> EmptyString.
Proof.
  intros (-> & Ld & _) E. apply (f_equal String.length) in E.
  rewrite length_append in E. cbn in E. lia.
Qed.

Lemma parse_dayMon (d mon s : string) :
  dayMon d mon s ->
  CustomerTable.parseDateAssume2025 engine (Some s)
  = match property CustomerTable.map (toLowerCase mon) with
    | Some month =>
      Some (newDateOfNumber
              (Date_UTC (Num 2025) (Num (month - 1)) (Num (numeral d))))
    | None => genericFallback engine s
    end.
Proof.
  intros Hs.
  rewrite parse_not_numeric;
    try (apply (dayMon_not_numeric d mon s _ _ _ _ Hs); cbn; lia);
    [|exact (dayMon_nonempty d mon s Hs)].
  unfold dayMonthFormat. rewrite (dMon_captures d mon s Hs).
  cbn [element nth].
  now destruct (property CustomerTable.map (toLowerCase mon)).
Qed.

Lemma monthStart_range (m l : Z) : 0 <= l <= 1 -> 0 <= monthStart m l <= 335.
Proof.
  intros Hl. unfold monthStart.
  destruct m as [|p|p]; try lia.
  do 4 (try destruct p as [p|p|]; try lia).
Qed.

(** [new Date(Date.UTC(2025, month - 1, day))] with a numeral of at most
    two digits for the day is always a valid Date: the day [day] of the
    month, counted on from the first of the month. *)
Lemma Date_UTC_2025 (month day : Z) :
  1 <= month <= 12 -> 0 <= day < 100 ->
  newDateOfNumber (Date_UTC (Num 2025) (Num (month - 1)) (Num day))
  = CalendarDate 2025 month day.
Proof.
  intros Hm Hd.
  unfold newDateOfNumber, Date_UTC, CalendarDate.
  change ((0 <=? 2025) && (2025 <=? 99)) with false. cbv iota.
  change (MakeTime 0 0 0 0) with 0.
  assert (Z.abs (MakeDate (MakeDay 2025 (month - 1) day) 0) <= maxTime) as Hr.
  { unfold MakeDate, MakeDay, maxTime, msPerDay.
    replace ((month - 1) / 12) with 0 by (Z.div_mod_to_equations; lia).
    replace ((month - 1) mod 12) with (month - 1)
      by (Z.div_mod_to_equations; lia).
    change (2025 + 0) with 2025. change (DayFromYear 2025) with 20089.
    change (leapFlag 2025) with 0.
    pose proof (monthStart_range (month - 1) 0 ltac:(lia)). lia. }
  now rewrite !TimeClip_in_range.
Qed.

Lemma dayMon_numeral (d mon s : string) : dayMon d mon s -> 0 <= numeral d < 100.
Proof.
  intros (_ & Ld & Dd & _). pose proof (numeral_bounds d Dd) as Hb.
  destruct Ld as [Ld | Ld]; rewrite Ld in Hb;
    [change (10 ^ Z.of_nat 1) with 10 in Hb
    |change (10 ^ Z.of_nat 2) with 100 in Hb]; lia.
Qed.

(** Outside the three numeric patterns the parser returns [null] or a
    valid Date: the day and abbreviated-month format cannot produce an
    Invalid Date, and the generic fallback checks for one. *)
Lemma parse_valid_unless_numeric (s : string) (d : Date) :
  test CustomerTable.iso s = false ->
  test CustomerTable.ymdSlash s = false ->
  test CustomerTable.dmySlash s = false ->
  CustomerTable.parseDateAssume2025 engine (Some s) = Some d ->
  valid d = true.
Proof.
  intros Hiso Hymd Hdmy.
  destruct s as [|c0 s0]; [discriminate|].
  rewrite parse_not_numeric by (assumption || discriminate).
  set (s := String c0 s0).
  unfold dayMonthFormat.
  destruct (match_ s CustomerTable.dMon) as [m|] eqn:Hm.
  - apply match_dMon_inv in Hm as (dd & mon & Hs & ->). cbn [element nth].
    destruct (property CustomerTable.map (toLowerCase mon)) as [month|] eqn:Hp.
    + intros [= <-].
      destruct (map_months _ _ Hp) as (Hmonth & _).
      change (valid (newDateOfNumber
                       (Date_UTC (Num 2025) (Num (month - 1))
                                 (Num (numeral dd)))) = true).
      now rewrite Date_UTC_2025 by (eauto using dayMon_numeral).
    + unfold genericFallback.
      destruct (valid (newDateOfString engine s)) eqn:Hv; [|discriminate].
      now intros [= <-].
  - unfold genericFallback.
    destruct (valid (newDateOfString engine s)) eqn:Hv; [|discriminate].
    now intros [= <-].
Qed.

(** Every Date the parser returns holds [NaN] or a time value in range. *)
Lemma parse_in_range (x : option string) (base : Date) (t : Z) :
  CustomerTable.parseDateAssume2025 engine x = Some base ->
  getTime base = Num t -> Z.abs t <= maxTime.
Proof.
  destruct x as [[|c0 s0]|]; try discriminate.
  rewrite parse_firstMatch by discriminate.
  set (s := String c0 s0).
  unfold precedence, firstMatch, isoFormat, slashYearFirstFormat,
    slashDayFirstFormat, dayMonthFormat, fallbackFormat, genericFallback.
  cbv zeta.
  destruct (test CustomerTable.iso s); [|
  destruct (test CustomerTable.ymdSlash s); [|
  destruct (test CustomerTable.dmySlash s); [|
  destruct (match_ s CustomerTable.dMon) as [m|];
    [destruct (property CustomerTable.map _)|];
    try destruct (valid _)]]];
    intros E Ht; try discriminate E; injection E as <-;
    cbn [getTime newDateOfString newDateOfNumber] in Ht;
    now apply TimeClip_range in Ht.
Qed.

(** What [computeRenewalDate] does to the parsed charging date. *)
Lemma thirty_days_later (base : Date) :
  let result := newDateOfDate base in
  setUTCDate result (add (getUTCDate result) (Num 30)) = plusDays base 30.
Proof.
  unfold newDateOfDate, setUTCDate, getUTCDate, plusDays. cbn [getTime].
  destruct (getTime base) as [|t]; [reflexivity|].
  cbn [add]. now rewrite MakeDay_shifted.
Qed.

Lemma computeRenewalDate_cases (charging existingRenewal : option string) :
  CustomerTable.computeRenewalDate engine charging existingRenewal
  = match CustomerTable.parseDateAssume2025 engine existingRenewal with
    | Some existing => Some existing
    | None => match CustomerTable.parseDateAssume2025 engine charging with
              | Some base => Some (plusDays base 30)
              | None => None
              end
    end.
Proof.
  unfold CustomerTable.computeRenewalDate.
  destruct (CustomerTable.parseDateAssume2025 engine existingRenewal);
    [reflexivity|].
  destruct (CustomerTable.parseDateAssume2025 engine charging) as [base|];
    [|reflexivity].
  now rewrite thirty_days_later.
Qed.

End Parser.


(** ** The properties of the specification *)

(** C9.  The two copies of the helpers agree: on every input string or
    null, [parseDateAssume2025] of CustomerTable and of UserDashboard return
    the same result, and so do the two [computeRenewalDate] on every pair of
    inputs. *)
Theorem duplicated_helpers_agree (engine : string -> JS.Number) :
  (forall dateString,
      CustomerTable.parseDateAssume2025 engine dateString
      = UserDashboard.parseDateAssume2025 engine dateString) /\
  (forall charging existingRenewal,
      CustomerTable.computeRenewalDate engine charging existingRenewal
      = UserDashboard.computeRenewalDate engine charging existingRenewal).
Proof.
  assert (forall x, CustomerTable.parseDateAssume2025 engine x
                    = UserDashboard.parseDateAssume2025 engine x) as Hparse.
  { intros [[|c s]|]; reflexivity. }
  split; [exact Hparse|].
  intros charging existingRenewal.
  unfold CustomerTable.computeRenewalDate, UserDashboard.computeRenewalDate.
  now rewrite !Hparse.
Qed.

Section Claims.
Import JS Spec.
Open Scope string_scope.

(** C1, at the input ["2025-13-01"].  The string matches the ISO pattern,
    so the parser returns [new Date("2025-13-01T00:00:00Z")] as it is:
    a Date object whose time value is [NaN], neither a valid calendar date
    nor [null].  Only the generic fallback checks [isNaN] before it
    returns: with the same month 13 in a string that no pattern matches,
    the result is [null]. *)
Theorem iso_month_13_is_an_invalid_date (engine : string -> Number) :
  CustomerTable.parseDateAssume2025 engine (Some "2025-13-01")
  = Some (mkDate NaN) /\
  valid (mkDate NaN) = false /\
  UserDashboard.parseDateAssume2025 engine (Some "2025-13-01")
  = Some (mkDate NaN) /\
  CustomerTable.computeRenewalDate engine (Some "2025-13-01") None
  = Some (mkDate NaN) /\
  CustomerTable.computeRenewalDate engine (Some "2025-08-05")
                                   (Some "2025-13-01")
  = Some (mkDate NaN) /\
  CustomerTable.parseDateAssume2025 strictEngine (Some "13.01.2025") = None.
Proof.
  split; [|split; [|split; [|split; [|split]]]]; vm_compute; reflexivity.
Qed.

(** The three branches of [computeRenewalDate], in terms of what the
    parser returns: a Date object for [existingRenewal], valid or not, is
    returned as it is, also when it is earlier than the charging date
    (charging 2025-08-05, renewal 2025-01-01); with [null] for
    [existingRenewal] and a Date object for [charging] the result is that
    Date plus 30 days; with [null] for both, the result is [null]. *)
Theorem explicit_renewal_takes_precedence
        (engine : string -> Number) (charging existingRenewal : option string) :
  (forall existing,
      CustomerTable.parseDateAssume2025 engine existingRenewal
      = Some existing ->
      CustomerTable.computeRenewalDate engine charging existingRenewal
      = Some existing) /\
  (forall base,
      CustomerTable.parseDateAssume2025 engine existingRenewal = None ->
      CustomerTable.parseDateAssume2025 engine charging = Some base ->
      CustomerTable.computeRenewalDate engine charging existingRenewal
      = Some (plusDays base 30)) /\
  (CustomerTable.parseDateAssume2025 engine existingRenewal = None ->
   CustomerTable.parseDateAssume2025 engine charging = None ->
   CustomerTable.computeRenewalDate engine charging existingRenewal = None) /\
  CustomerTable.computeRenewalDate engine (Some "2025-08-05")
                                   (Some "2025-01-01")
  = Some (CalendarDate 2025 1 1).
Proof.
  rewrite computeRenewalDate_cases.
  split; [|split; [|split]].
  - now intros existing ->.
  - now intros base -> ->.
  - now intros -> ->.
  - vm_compute. reflexivity.
Qed.

Lemma explicit_renewal_takes_precedence_witness :
  CustomerTable.computeRenewalDate strictEngine (Some "2025-08-05")
                                   (Some "2025-01-01")
  = Some (CalendarDate 2025 1 1) /\
  CustomerTable.computeRenewalDate strictEngine (Some "2025-08-05") (Some "x")
  = Some (plusDays (CalendarDate 2025 8 5) 30) /\
  CustomerTable.computeRenewalDate strictEngine (Some "x") (Some "y") = None.
Proof.
  pose proof (explicit_renewal_takes_precedence
                strictEngine (Some "2025-08-05") (Some "2025-01-01"))
    as (H1 & _).
  pose proof (explicit_renewal_takes_precedence
                strictEngine (Some "2025-08-05") (Some "x")) as (_ & H2 & _).
  pose proof (explicit_renewal_takes_precedence
                strictEngine (Some "x") (Some "y")) as (_ & _ & H3 & _).
  split; [|split].
  - apply H1. vm_compute. reflexivity.
  - apply H2; vm_compute; reflexivity.
  - apply H3; vm_compute; reflexivity.
Defined.

(** C2, at the inputs charging ["2025-08-05"] with existingRenewal
    ["2025-13-01"], and charging ["2025-13-01"] with no renewal.  The
    renewal ["2025-13-01"] does not parse to a date: the parser hands back
    an Invalid Date object for it.  [computeRenewalDate] tests that object
    with [if (existing)], finds it truthy and returns it, where the
    charging date, a valid one, should have given 2025-09-04.  With the
    same string as the only date, the result is the Invalid Date again
    and not [null].  Both components do the same. *)
Theorem invalid_renewal_is_returned_not_derived (engine : string -> Number) :
  CustomerTable.parseDateAssume2025 engine (Some "2025-13-01")
  = Some (mkDate NaN) /\
  valid (mkDate NaN) = false /\
  CustomerTable.parseDateAssume2025 engine (Some "2025-08-05")
  = Some (CalendarDate 2025 8 5) /\
  valid (CalendarDate 2025 8 5) = true /\
  plusDays (CalendarDate 2025 8 5) 30 = CalendarDate 2025 9 4 /\
  CustomerTable.computeRenewalDate engine (Some "2025-08-05")
                                   (Some "2025-13-01")
  = Some (mkDate NaN) /\
  CustomerTable.computeRenewalDate engine (Some "2025-08-05")
                                   (Some "2025-13-01")
  <> Some (CalendarDate 2025 9 4) /\
  CustomerTable.computeRenewalDate engine (Some "2025-13-01") None
  = Some (mkDate NaN) /\
  CustomerTable.computeRenewalDate engine (Some "2025-13-01") None <> None /\
  UserDashboard.computeRenewalDate engine (Some "2025-08-05")
                                   (Some "2025-13-01")
  = Some (mkDate NaN) /\
  UserDashboard.computeRenewalDate engine (Some "2025-13-01") None
  = Some (mkDate NaN).
Proof.
  assert (CustomerTable.computeRenewalDate engine (Some "2025-08-05")
                                           (Some "2025-13-01")
          = Some (mkDate NaN)) as E1 by (vm_compute; reflexivity).
  assert (CustomerTable.computeRenewalDate engine (Some "2025-13-01") None
          = Some (mkDate NaN)) as E2 by (vm_compute; reflexivity).
  repeat match goal with |- _ /\ _ => split end;
    try (vm_compute; reflexivity).
  - rewrite E1. discriminate.
  - rewrite E2. discriminate.
Qed.

(** C7.  When no renewal date is recorded and the charging date parses,
    the renewal date is the charging date moved by exactly 30 calendar days
    in UTC: as long as the result is within the range of time values, its
    day number is 30 more and its time within the day is the same,
    whatever month or year boundary lies between.  In particular charging
    2025-08-05 gives 2025-09-04, and charging 2025-12-15 gives 2026-01-14. *)
Theorem renewal_is_thirty_days_later (engine : string -> Number) :
  (forall charging existingRenewal base t,
      CustomerTable.parseDateAssume2025 engine existingRenewal = None ->
      CustomerTable.parseDateAssume2025 engine charging = Some base ->
      getTime base = Num t ->
      CustomerTable.computeRenewalDate engine charging existingRenewal
      = Some (mkDate (TimeClip (Num (t + 30 * msPerDay)))) /\
      (t + 30 * msPerDay <= maxTime ->
       TimeClip (Num (t + 30 * msPerDay)) = Num (t + 30 * msPerDay) /\
       Day (t + 30 * msPerDay) = Day t + 30 /\
       TimeWithinDay (t + 30 * msPerDay) = TimeWithinDay t)) /\
  CustomerTable.computeRenewalDate engine (Some "2025-08-05") None
  = Some (CalendarDate 2025 9 4) /\
  utcYMD (CalendarDate 2025 9 4) = Some (2025, 9, 4) /\
  CustomerTable.computeRenewalDate engine (Some "2025-12-15") None
  = Some (CalendarDate 2026 1 14) /\
  utcYMD (CalendarDate 2026 1 14) = Some (2026, 1, 14).
Proof.
  split; [|split; [|split; [|split]]]; [|vm_compute; reflexivity ..].
  intros charging existingRenewal base t Hr Hc Ht.
  rewrite computeRenewalDate_cases, Hr, Hc.
  unfold plusDays. rewrite Ht, MakeDate_shifted.
  split; [reflexivity|].
  intros Hmax. pose proof (parse_in_range engine _ _ _ Hc Ht) as Hrange.
  destruct (Day_shifted t 30) as [HD HT]. repeat split; auto.
  apply TimeClip_in_range. unfold msPerDay, maxTime in *. lia.
Qed.

Lemma renewal_is_thirty_days_later_witness :
  CustomerTable.computeRenewalDate strictEngine (Some "2025-08-05") None
  = Some (mkDate (TimeClip (Num (1754352000000 + 30 * msPerDay)))) /\
  Day (1754352000000 + 30 * msPerDay) = Day 1754352000000 + 30.
Proof.
  destruct (renewal_is_thirty_days_later strictEngine) as [H _].
  destruct (H (Some "2025-08-05") None (CalendarDate 2025 8 5) 1754352000000)
    as [H1 H2]; try (vm_compute; reflexivity).
  split; [exact H1|].
  apply H2. vm_compute. discriminate.
Defined.

(** C8.  [parse(null)] is [null], [parse("")] is [null], and
    ["not-a-date"], which none of the four patterns matches, is handed to
    the generic fallback and is [null] when the engine rejects it: absence
    and malformation both end in [null], not in an error. *)
Theorem absent_and_malformed_are_null (engine : string -> Number) :
  engine "not-a-date" = NaN ->
  CustomerTable.parseDateAssume2025 engine None = None /\
  CustomerTable.parseDateAssume2025 engine (Some "") = None /\
  CustomerTable.parseDateAssume2025 engine (Some "not-a-date")
  = genericFallback engine "not-a-date" /\
  CustomerTable.parseDateAssume2025 engine (Some "not-a-date") = None.
Proof.
  intros H.
  assert (CustomerTable.parseDateAssume2025 engine (Some "not-a-date")
          = genericFallback engine "not-a-date") as E by reflexivity.
  split; [reflexivity | split; [reflexivity | split; [exact E|]]].
  rewrite E. unfold genericFallback, valid, newDateOfString.
  change (Date_parse engine "not-a-date") with (engine "not-a-date").
  now rewrite H.
Qed.

Lemma absent_and_malformed_are_null_witness :
  CustomerTable.parseDateAssume2025 strictEngine None = None /\
  CustomerTable.parseDateAssume2025 strictEngine (Some "") = None /\
  CustomerTable.parseDateAssume2025 strictEngine (Some "not-a-date") = None.
Proof.
  destruct (absent_and_malformed_are_null strictEngine eq_refl)
    as (H1 & H2 & _ & H3).
  exact (conj H1 (conj H2 H3)).
Defined.

(** C3.  The parser tries the formats in one fixed order: ISO, slash
    year-first, slash day-first, day and abbreviated month, generic
    fallback; for every non-empty input the first format that recognises
    it settles the result.  (The absent and the empty input are [null]
    before any format is tried.) *)
Theorem formats_are_tried_in_order (engine : string -> Number) :
  CustomerTable.parseDateAssume2025 engine None = None /\
  CustomerTable.parseDateAssume2025 engine (Some "") = None /\
  forall (c : ascii) (s : string),
    CustomerTable.parseDateAssume2025 engine (Some (String c s))
    = firstMatch
        [ isoFormat engine; slashYearFirstFormat engine;
          slashDayFirstFormat engine; dayMonthFormat; fallbackFormat engine ]
        (String c s).
Proof.
  split; [reflexivity | split; [reflexivity|]].
  intros c s. now apply parse_firstMatch.
Qed.

(** C6.  Every input that matches YYYY/MM/DD parses to what the same
    string with hyphens for slashes, an ISO date, parses to; in particular
    ["2025/08/05"] and ["2025-08-05"] both give the calendar date
    2025-08-05. *)
Theorem slash_year_first_is_iso (engine : string -> Number) :
  (forall s,
      test CustomerTable.ymdSlash s = true ->
      test CustomerTable.iso (replaceAllChar "/" "-" s) = true /\
      CustomerTable.parseDateAssume2025 engine (Some s)
      = CustomerTable.parseDateAssume2025 engine
          (Some (replaceAllChar "/" "-" s))) /\
  CustomerTable.parseDateAssume2025 engine (Some "2025/08/05")
  = CustomerTable.parseDateAssume2025 engine (Some "2025-08-05") /\
  CustomerTable.parseDateAssume2025 engine (Some "2025-08-05")
  = Some (CalendarDate 2025 8 5) /\
  utcYMD (CalendarDate 2025 8 5) = Some (2025, 8, 5).
Proof.
  split; [|split; [|split]]; [|vm_compute; reflexivity ..].
  intros s H.
  assert (test CustomerTable.iso (replaceAllChar "/" "-" s) = true) as Hiso.
  { apply (threeNumerals_shape 4 2 2 "/") in H as (a & b & c & H).
    apply (threeNumerals_shape 4 2 2 "-"). exists a, b, c.
    destruct H as (-> & La & Lb & Lc & Da & Db & Dc).
    rewrite replaceAllChar_threeNumerals by assumption.
    repeat split; assumption. }
  split; [exact Hiso|].
  now rewrite (parse_ymdSlash engine s H), (parse_iso engine _ Hiso).
Qed.

Lemma slash_year_first_is_iso_witness :
  CustomerTable.parseDateAssume2025 strictEngine (Some "2025/08/05")
  = CustomerTable.parseDateAssume2025 strictEngine (Some "2025-08-05").
Proof.
  destruct (slash_year_first_is_iso strictEngine) as [H _].
  destruct (H "2025/08/05" eq_refl) as [_ E]. exact E.
Defined.

(** C5.  For every input that matches DD/MM/YYYY the parser takes the day
    from the first two characters, the month from the next two and the year
    from the last four: the result is what the ISO date YYYY-MM-DD of these
    three parses to, and is that calendar date when they name a real day.
    The input is read by neither of the year-first patterns.  In particular
    ["05/08/2025"] gives the calendar date 2025-08-05. *)
Theorem slash_day_first_is_positional (engine : string -> Number) :
  (forall s,
      test CustomerTable.dmySlash s = true ->
      let dd := substring 0 2 s in
      let mm := substring 3 2 s in
      let yyyy := substring 6 4 s in
      test CustomerTable.iso s = false /\
      test CustomerTable.ymdSlash s = false /\
      CustomerTable.parseDateAssume2025 engine (Some s)
      = CustomerTable.parseDateAssume2025 engine
          (Some (yyyy ++ "-" ++ mm ++ "-" ++ dd)) /\
      (realDay (numeral yyyy) (numeral mm) (numeral dd) ->
       CustomerTable.parseDateAssume2025 engine (Some s)
       = Some (CalendarDate (numeral yyyy) (numeral mm) (numeral dd)) /\
       utcYMD (CalendarDate (numeral yyyy) (numeral mm) (numeral dd))
       = Some (numeral yyyy, numeral mm, numeral dd))) /\
  CustomerTable.parseDateAssume2025 engine (Some "05/08/2025")
  = Some (CalendarDate 2025 8 5) /\
  utcYMD (CalendarDate 2025 8 5) = Some (2025, 8, 5).
Proof.
  split; [|split]; [|vm_compute; reflexivity ..].
  intros s H dd mm yyyy.
  split; [now apply dmySlash_not_iso|].
  split; [now apply dmySlash_not_ymdSlash|].
  pose proof (parse_dmySlash engine s H) as Hparse. fold dd mm yyyy in Hparse.
  apply (threeNumerals_shape 2 2 4 "/") in H as (a & b & c & H).
  destruct (substring_dayFirst a b c s H) as (Ea & Eb & Ec).
  fold dd in Ea. fold mm in Eb. fold yyyy in Ec.
  destruct H as (_ & La & Lb & Lc & Da & Db & Dc).
  rewrite <- Ea in La, Da. rewrite <- Eb in Lb, Db. rewrite <- Ec in Lc, Dc.
  assert (threeNumerals 4 2 2 "-" yyyy mm dd (yyyy ++ "-" ++ mm ++ "-" ++ dd))
    as Hiso by (repeat split; assumption).
  assert (test CustomerTable.iso (yyyy ++ "-" ++ mm ++ "-" ++ dd) = true)
    as Htest by (apply (threeNumerals_shape 4 2 2 "-"); eauto).
  assert ((yyyy ++ "-" ++ mm ++ "-" ++ dd) ++ "T00:00:00Z"
          = yyyy ++ "-" ++ mm ++ "-" ++ dd ++ "T00:00:00Z") as Eassoc
      by now rewrite !append_assoc.
  split.
  - now rewrite Hparse, (parse_iso engine _ Htest), Eassoc.
  - intros Hreal. split; [|now apply utcYMD_CalendarDate].
    rewrite Hparse, <- Eassoc. f_equal.
    now apply newDateOfString_real.
Qed.

Lemma slash_day_first_is_positional_witness :
  CustomerTable.parseDateAssume2025 strictEngine (Some "05/08/2025")
  = Some (CalendarDate 2025 8 5).
Proof.
  destruct (slash_day_first_is_positional strictEngine) as [H _].
  destruct (H "05/08/2025" eq_refl) as (_ & _ & _ & Hreal).
  apply Hreal. vm_compute. intuition discriminate.
Defined.

Lemma MakeDay_2025_in_range (month day : Z) :
  1 <= month <= 12 -> 0 <= day < 100 ->
  Z.abs (MakeDate (MakeDay 2025 (month - 1) day) 0) <= maxTime.
Proof.
  intros Hm Hd. unfold MakeDate, MakeDay, maxTime, msPerDay.
  replace ((month - 1) / 12) with 0 by (Z.div_mod_to_equations; lia).
  replace ((month - 1) mod 12) with (month - 1)
    by (Z.div_mod_to_equations; lia).
  change (2025 + 0) with 2025. change (DayFromYear 2025) with 20089.
  change (leapFlag 2025) with 0.
  pose proof (monthStart_range (month - 1) 0 ltac:(lia)). lia.
Qed.





(** C10.  For every string of three numerals with slashes between them in
    which the first or the second numeral has one digit only, such as
    ["5/8/2025"], the day-first pattern does not match, nor does any other
    of the four patterns: the string goes to the generic fallback, and the
    result is whatever the engine makes of it: [null] with an engine that
    rejects ["5/8/2025"], the 8th of May 2025 with one that reads the month
    first.  The three numeric patterns match strings of ten characters
    only, so none of them takes a day of one digit; the day and
    abbreviated-month pattern does (["5-Aug"]). *)
Theorem single_digit_slash_goes_to_fallback (engine : string -> Number) :
  (forall d m y : string,
      allDigits d = true -> allDigits m = true -> allDigits y = true ->
      (String.length d = 1 \/ String.length m = 1)%nat ->
      let s := d ++ "/" ++ m ++ "/" ++ y in
      test CustomerTable.dmySlash s = false /\
      test CustomerTable.ymdSlash s = false /\
      test CustomerTable.iso s = false /\
      test CustomerTable.dMon s = false /\
      CustomerTable.parseDateAssume2025 engine (Some s)
      = genericFallback engine s /\
      Date_parse engine s = engine s) /\
  (forall s,
      test CustomerTable.iso s = true \/ test CustomerTable.ymdSlash s = true \/
      test CustomerTable.dmySlash s = true ->
      String.length s = 10%nat) /\
  test CustomerTable.dMon "5-Aug" = true /\
  CustomerTable.parseDateAssume2025 strictEngine (Some "5/8/2025") = None /\
  CustomerTable.parseDateAssume2025 monthFirstEngine (Some "5/8/2025")
  = Some (CalendarDate 2025 5 8).
Proof.
  split; [|split; [|split; [|split]]]; [| |vm_compute; reflexivity ..].
  - intros d m y Dd Dm Dy Hone s.
    destruct (slashes_not_hyphens d m y 4 2 2 Dd Dm Dy)
      as (Hiso & HdMon & HDate).
    fold s in Hiso, HdMon, HDate.
    assert (test CustomerTable.dmySlash s = false) as Hdmy.
    { apply not_true_false. intros H.
      apply (slashes_widths d m y 2 2 4 Dd Dm Dy) in H. lia. }
    assert (test CustomerTable.ymdSlash s = false) as Hymd.
    { apply not_true_false. intros H.
      apply (slashes_widths d m y 4 2 2 Dd Dm Dy) in H. lia. }
    repeat (split; [assumption|]).
    split; [|apply HDate].
    rewrite parse_not_numeric; try assumption.
    + unfold dayMonthFormat.
      apply match_dMon_None in HdMon. now rewrite HdMon.
    + subst s. intros E. apply (f_equal String.length) in E.
      rewrite !length_append in E. cbn in E. lia.
  - intros s [H | [H | H]];
      apply threeNumerals_shape in H as (a & b & c & H);
      now apply threeNumerals_length in H.
Qed.

Lemma single_digit_slash_goes_to_fallback_witness :
  test CustomerTable.dmySlash "5/8/2025" = false /\
  CustomerTable.parseDateAssume2025 strictEngine (Some "5/8/2025")
  = genericFallback strictEngine "5/8/2025".
Proof.
  destruct (single_digit_slash_goes_to_fallback strictEngine) as [H _].
  destruct (H "5" "8" "2025" eq_refl eq_refl eq_refl (or_introl eq_refl))
    as (H1 & _ & _ & _ & H2 & _).
  exact (conj H1 H2).
Defined.

End Claims.




(** ** Further properties of the parser *)

Section ParserProperties.
Import JS Spec.
Open Scope string_scope.

(** The year-first patterns fix the positions of their three fields. *)
Lemma substring_yearFirst (x : ascii) (a b c s : string) :
  threeNumerals 4 2 2 (String x "") a b c s ->
  substring 0 4 s = a /\ substring 5 2 s = b /\ substring 8 2 s = c.
Proof.
  intros (-> & La & Lb & Lc & _).
  apply length4 in La as (a1 & a2 & a3 & a4 & ->).
  apply length2 in Lb as (b1 & b2 & ->).
  apply length2 in Lc as (c1 & c2 & ->).
  repeat split.
Qed.

(** What the parser hands to [Date.parse] for a year-first date, with
    hyphens or with slashes. *)
Lemma parse_yearFirst (engine : string -> Number) (s : string) :
  test CustomerTable.iso s = true \/ test CustomerTable.ymdSlash s = true ->
  let yyyy := substring 0 4 s in
  let mm := substring 5 2 s in
  let dd := substring 8 2 s in
  threeNumerals 4 2 2 "-" yyyy mm dd (yyyy ++ "-" ++ mm ++ "-" ++ dd) /\
  CustomerTable.parseDateAssume2025 engine (Some s)
  = Some (newDateOfString engine
            ((yyyy ++ "-" ++ mm ++ "-" ++ dd) ++ "T00:00:00Z")).
Proof.
  intros [H | H] yyyy mm dd.
  - pose proof (parse_iso engine s H) as Hparse.
    apply (threeNumerals_shape 4 2 2 "-") in H as (a & b & c & H).
    destruct (substring_yearFirst _ a b c s H) as (Ea & Eb & Ec).
    fold yyyy in Ea. fold mm in Eb. fold dd in Ec. subst a b c.
    split; [|destruct H as (<- & _); exact Hparse].
    destruct H as (_ & H). repeat split; apply H.
  - pose proof (parse_ymdSlash engine s H) as Hparse.
    apply (threeNumerals_shape 4 2 2 "/") in H as (a & b & c & H).
    destruct (substring_yearFirst _ a b c s H) as (Ea & Eb & Ec).
    fold yyyy in Ea. fold mm in Eb. fold dd in Ec. subst a b c.
    destruct H as (E & H). split; [repeat split; apply H|].
    rewrite Hparse, E.
    now rewrite replaceAllChar_threeNumerals by apply H.
Qed.

(** X1.  A year-first date, with hyphens or slashes, whose three numerals
    name a real day of the calendar parses to that calendar date at UTC
    midnight: its UTC year, month and day read back as the numerals. *)
Theorem year_first_date_reads_back (engine : string -> Number) (s : string) :
  test CustomerTable.iso s = true \/ test CustomerTable.ymdSlash s = true ->
  let yyyy := numeral (substring 0 4 s) in
  let mm := numeral (substring 5 2 s) in
  let dd := numeral (substring 8 2 s) in
  realDay yyyy mm dd ->
  CustomerTable.parseDateAssume2025 engine (Some s)
  = Some (CalendarDate yyyy mm dd) /\
  utcYMD (CalendarDate yyyy mm dd) = Some (yyyy, mm, dd) /\
  (forall t, getTime (CalendarDate yyyy mm dd) = Num t -> TimeWithinDay t = 0).
Proof.
  intros H yyyy mm dd Hreal.
  destruct (parse_yearFirst engine s H) as (Hs & Hparse).
  split; [|split].
  - rewrite Hparse. f_equal. now apply newDateOfString_real.
  - now apply utcYMD_CalendarDate.
  - intros t [= <-]. destruct Hreal as [Hm Hd].
    now destruct (MakeDay_fields yyyy mm dd Hm Hd) as (_ & _ & _ & HT).
Qed.

Lemma year_first_date_reads_back_witness :
  CustomerTable.parseDateAssume2025 strictEngine (Some "2024/02/29")
  = Some (CalendarDate 2024 2 29) /\
  utcYMD (CalendarDate 2024 2 29) = Some (2024, 2, 29).
Proof.
  destruct (year_first_date_reads_back strictEngine "2024/02/29")
    as (H1 & H2 & _).
  - right. reflexivity.
  - vm_compute. intuition discriminate.
  - exact (conj H1 H2).
Defined.

Lemma parse_numeric_out_of_bounds (engine : string -> Number) :
  (forall s,
      test CustomerTable.iso s = true \/ test CustomerTable.ymdSlash s = true ->
      ~ (1 <= numeral (substring 5 2 s) <= 12 /\
         1 <= numeral (substring 8 2 s) <= 31) ->
      CustomerTable.parseDateAssume2025 engine (Some s) = Some (mkDate NaN)) /\
  (forall s,
      test CustomerTable.dmySlash s = true ->
      ~ (1 <= numeral (substring 3 2 s) <= 12 /\
         1 <= numeral (substring 0 2 s) <= 31) ->
      CustomerTable.parseDateAssume2025 engine (Some s) = Some (mkDate NaN)).
Proof.
  split; intros s H Hout.
  - destruct (parse_yearFirst engine s H) as (Hs & Hparse).
    rewrite Hparse. f_equal.
    now apply newDateOfString_out_of_bounds with (1 := Hs).
  - rewrite (parse_dmySlash engine s H).
    apply (threeNumerals_shape 2 2 4 "/") in H as (a & b & c & H).
    destruct (substring_dayFirst a b c s H) as (Ea & Eb & Ec).
    rewrite Ea, Eb in Hout. rewrite Ea, Eb, Ec.
    destruct H as (_ & La & Lb & Lc & Da & Db & Dc).
    rewrite <- !append_assoc. f_equal.
    replace (((((c ++ "-") ++ b) ++ "-") ++ a) ++ "T00:00:00Z")
      with ((c ++ "-" ++ b ++ "-" ++ a) ++ "T00:00:00Z")
      by now rewrite !append_assoc.
    apply newDateOfString_out_of_bounds with (y := c) (m := b) (d := a);
      [repeat split; assumption | assumption].
Qed.


(** X2.  A string that passes one of the three numeric patterns with a
    month outside 01-12 or a day outside 01-31 comes back as an Invalid
    Date object, whatever the engine: never as [null]. *)
Theorem numeric_date_out_of_bounds_is_invalid (engine : string -> Number) :
  (forall s,
      test CustomerTable.iso s = true \/ test CustomerTable.ymdSlash s = true ->
      ~ (1 <= numeral (substring 5 2 s) <= 12 /\
         1 <= numeral (substring 8 2 s) <= 31) ->
      CustomerTable.parseDateAssume2025 engine (Some s) = Some (mkDate NaN)) /\
  (forall s,
      test CustomerTable.dmySlash s = true ->
      ~ (1 <= numeral (substring 3 2 s) <= 12 /\
         1 <= numeral (substring 0 2 s) <= 31) ->
      CustomerTable.parseDateAssume2025 engine (Some s) = Some (mkDate NaN)).
Proof. apply parse_numeric_out_of_bounds. Qed.

Lemma numeric_date_out_of_bounds_is_invalid_witness :
  CustomerTable.parseDateAssume2025 strictEngine (Some "2025/00/10")
  = Some (mkDate NaN) /\
  CustomerTable.parseDateAssume2025 strictEngine (Some "32/01/2025")
  = Some (mkDate NaN).
Proof.
  destruct (numeric_date_out_of_bounds_is_invalid strictEngine) as [H1 H2].
  split.
  - apply H1; [right; reflexivity|]. vm_compute. intuition discriminate.
  - apply H2; [reflexivity|]. vm_compute. intuition discriminate.
Defined.

(** X3.  For an input that none of the three numeric patterns matches, the
    parser returns [null] or a valid Date: the day and abbreviated-month
    branch cannot produce an Invalid Date and the generic fallback checks
    for one. *)
Theorem valid_or_null_outside_numeric
        (engine : string -> Number) (s : string) (d : Date) :
  test CustomerTable.iso s = false ->
  test CustomerTable.ymdSlash s = false ->
  test CustomerTable.dmySlash s = false ->
  CustomerTable.parseDateAssume2025 engine (Some s) = Some d ->
  valid d = true.
Proof. apply parse_valid_unless_numeric. Qed.

Lemma valid_or_null_outside_numeric_witness :
  valid (CalendarDate 2025 8 5) = true.
Proof.
  apply (valid_or_null_outside_numeric strictEngine "5-Aug");
    vm_compute; reflexivity.
Defined.

(** X4.  No string is matched by two of the four patterns, so the order in
    which the parser tries them changes no result. *)
Theorem patterns_exclude_one_another (s : string) :
  (test CustomerTable.iso s = true ->
   test CustomerTable.ymdSlash s = false /\
   test CustomerTable.dmySlash s = false /\
   test CustomerTable.dMon s = false) /\
  (test CustomerTable.ymdSlash s = true ->
   test CustomerTable.iso s = false /\
   test CustomerTable.dmySlash s = false /\
   test CustomerTable.dMon s = false) /\
  (test CustomerTable.dmySlash s = true ->
   test CustomerTable.iso s = false /\
   test CustomerTable.ymdSlash s = false /\
   test CustomerTable.dMon s = false) /\
  (test CustomerTable.dMon s = true ->
   test CustomerTable.iso s = false /\
   test CustomerTable.ymdSlash s = false /\
   test CustomerTable.dmySlash s = false).
Proof.
  assert (forall n1 n2 n3 x,
             (6 < n1 + n2 + n3 + 2)%nat ->
             test (threeNumeralsPattern n1 n2 n3 x) s = true ->
             test CustomerTable.dMon s = false) as Hlong.
  { intros n1 n2 n3 x Hn H. apply not_true_false. intros HdMon.
    apply dMon_shape in HdMon as (d & mon & Hs).
    rewrite (dayMon_not_numeric d mon s n1 n2 n3 x Hs Hn) in H.
    discriminate H. }
  repeat split.
  - apply not_true_false. intros H'.
    rewrite (ymdSlash_not_iso s H') in H. discriminate H.
  - apply not_true_false. intros H'.
    rewrite (dmySlash_not_iso s H') in H. discriminate H.
  - apply (Hlong 4%nat 2%nat 2%nat "-"%char); [cbn; lia | assumption].
  - now apply ymdSlash_not_iso.
  - apply not_true_false. intros H'.
    rewrite (dmySlash_not_ymdSlash s H') in H. discriminate H.
  - apply (Hlong 4%nat 2%nat 2%nat "/"%char); [cbn; lia | assumption].
  - now apply dmySlash_not_iso.
  - now apply dmySlash_not_ymdSlash.
  - apply (Hlong 2%nat 2%nat 4%nat "/"%char); [cbn; lia | assumption].
  - apply dMon_shape in H as (d & mon & Hs).
    apply (dayMon_not_numeric d mon s 4 2 2 "-" Hs). cbn. lia.
  - apply dMon_shape in H as (d & mon & Hs).
    apply (dayMon_not_numeric d mon s 4 2 2 "/" Hs). cbn. lia.
  - apply dMon_shape in H as (d & mon & Hs).
    apply (dayMon_not_numeric d mon s 2 2 4 "/" Hs). cbn. lia.
Qed.

Lemma patterns_exclude_one_another_witness :
  test CustomerTable.ymdSlash "05/08/2025" = false.
Proof.
  destruct (patterns_exclude_one_another "05/08/2025") as (_ & _ & H & _).
  destruct (H eq_refl) as (_ & H' & _). exact H'.
Defined.

Lemma dayMon_of_known_month (d mon : string) (month : Z) :
  (String.length d = 1 \/ String.length d = 2)%nat -> allDigits d = true ->
  property CustomerTable.map (toLowerCase mon) = Some month ->
  dayMon d mon (d ++ "-" ++ mon).
Proof.
  intros Ld Dd Hp. destruct (month_name_shape mon month Hp) as [Lm Wm].
  repeat split; assumption.
Qed.

Lemma parse_known_month
      (engine : string -> Number) (d mon : string) (month : Z) :
  (String.length d = 1 \/ String.length d = 2)%nat -> allDigits d = true ->
  property CustomerTable.map (toLowerCase mon) = Some month ->
  CustomerTable.parseDateAssume2025 engine (Some (d ++ "-" ++ mon))
  = Some (CalendarDate 2025 month (numeral d)).
Proof.
  intros Ld Dd Hp.
  pose proof (dayMon_of_known_month d mon month Ld Dd Hp) as Hs.
  rewrite (parse_dayMon engine d mon _ Hs), Hp.
  destruct (map_months _ _ Hp) as (Hmonth & _).
  rewrite Date_UTC_2025; eauto using dayMon_numeral.
Qed.

(** X5.  The day and abbreviated-month form looks neither at the case of
    the letters nor at a leading zero of the day: two inputs whose
    numerals denote the same day and whose abbreviations have the same
    lower-case form, one of the table, parse to the same Date. *)
Theorem day_month_ignores_case_and_leading_zero
        (engine : string -> Number) (d d' mon mon' : string) (month : Z) :
  (String.length d = 1 \/ String.length d = 2)%nat -> allDigits d = true ->
  (String.length d' = 1 \/ String.length d' = 2)%nat -> allDigits d' = true ->
  numeral d = numeral d' ->
  property CustomerTable.map (toLowerCase mon) = Some month ->
  toLowerCase mon' = toLowerCase mon ->
  CustomerTable.parseDateAssume2025 engine (Some (d ++ "-" ++ mon))
  = CustomerTable.parseDateAssume2025 engine (Some (d' ++ "-" ++ mon')).
Proof.
  intros Ld Dd Ld' Dd' Hnum Hp Hlow.
  rewrite (parse_known_month engine d mon month Ld Dd Hp).
  rewrite <- Hlow in Hp.
  rewrite (parse_known_month engine d' mon' month Ld' Dd' Hp).
  now rewrite Hnum.
Qed.

Lemma day_month_ignores_case_and_leading_zero_witness :
  CustomerTable.parseDateAssume2025 strictEngine (Some "5-Aug")
  = CustomerTable.parseDateAssume2025 strictEngine (Some "05-aUG").
Proof.
  apply (day_month_ignores_case_and_leading_zero
           strictEngine "5" "05" "Aug" "aUG" 8); try reflexivity.
  - left. reflexivity.
  - right. reflexivity.
Defined.

(** X6.  In the day and abbreviated-month form the numeral counts days
    from the first of the month in 2025 and is not checked against the
    length of the month: the result is always a valid Date, the first of
    the month moved by the numeral less one days.  So [0-Jan] is
    31 December 2024 and [31-Feb] is 3 March 2025. *)
Theorem day_month_counts_from_the_first
        (engine : string -> Number) (d mon : string) (month : Z) :
  (String.length d = 1 \/ String.length d = 2)%nat -> allDigits d = true ->
  property CustomerTable.map (toLowerCase mon) = Some month ->
  CustomerTable.parseDateAssume2025 engine (Some (d ++ "-" ++ mon))
  = Some (plusDays (CalendarDate 2025 month 1) (numeral d - 1)) /\
  valid (plusDays (CalendarDate 2025 month 1) (numeral d - 1)) = true /\
  utcYMD (CalendarDate 2025 month 1) = Some (2025, month, 1).
Proof.
  intros Ld Dd Hp.
  pose proof (dayMon_of_known_month d mon month Ld Dd Hp) as Hs.
  pose proof (dayMon_numeral d mon _ Hs) as Hn.
  destruct (map_months _ _ Hp) as (Hmonth & _).
  assert (plusDays (CalendarDate 2025 month 1) (numeral d - 1)
          = CalendarDate 2025 month (numeral d)) as E.
  { unfold plusDays, CalendarDate. cbn [getTime].
    destruct (Day_MakeDate (MakeDay 2025 (month - 1) 1) 0
                ltac:(unfold msPerDay; lia)) as [-> ->].
    replace (MakeDay 2025 (month - 1) 1 + (numeral d - 1))
      with (MakeDay 2025 (month - 1) (numeral d)) by (unfold MakeDay; lia).
    now rewrite TimeClip_in_range by now apply MakeDay_2025_in_range. }
  rewrite E. split; [|split].
  - now apply parse_known_month.
  - reflexivity.
  - apply utcYMD_CalendarDate. split; [assumption|].
    pose proof (DaysInMonth_lower 2025 month). lia.
Qed.

Lemma day_month_counts_from_the_first_witness :
  (CustomerTable.parseDateAssume2025 strictEngine (Some "0-Jan")
   = Some (plusDays (CalendarDate 2025 1 1) (-1)) /\
   utcYMD (plusDays (CalendarDate 2025 1 1) (-1)) = Some (2024, 12, 31)) /\
  (CustomerTable.parseDateAssume2025 strictEngine (Some "31-Feb")
   = Some (plusDays (CalendarDate 2025 2 1) 30) /\
   utcYMD (plusDays (CalendarDate 2025 2 1) 30) = Some (2025, 3, 3)).
Proof.
  split.
  - destruct (day_month_counts_from_the_first
                strictEngine "0" "Jan" 1 (or_introl eq_refl) eq_refl eq_refl)
      as (H & _).
    split; [exact H | vm_compute; reflexivity].
  - destruct (day_month_counts_from_the_first
                strictEngine "31" "Feb" 2 (or_intror eq_refl) eq_refl eq_refl)
      as (H & _).
    split; [exact H | vm_compute; reflexivity].
Defined.

(** X7.  Every Date that [parseDateAssume2025] or [computeRenewalDate]
    returns holds [NaN] or a time value within 8.64e15 milliseconds of the
    epoch, whatever the engine answers. *)
Theorem returned_dates_are_in_range (engine : string -> Number) :
  (forall x d t,
      CustomerTable.parseDateAssume2025 engine x = Some d ->
      getTime d = Num t -> Z.abs t <= maxTime) /\
  (forall charging renewal d t,
      CustomerTable.computeRenewalDate engine charging renewal = Some d ->
      getTime d = Num t -> Z.abs t <= maxTime).
Proof.
  split; [apply parse_in_range|].
  intros charging renewal d t. rewrite computeRenewalDate_cases.
  destruct (CustomerTable.parseDateAssume2025 engine renewal) as [e|] eqn:Hr.
  - intros [= <-]. now apply (parse_in_range engine renewal).
  - destruct (CustomerTable.parseDateAssume2025 engine charging) as [b|];
      [|discriminate].
    intros [= <-]. unfold plusDays.
    destruct (getTime b); cbn [getTime]; [discriminate|].
    intros H. now apply TimeClip_range in H.
Qed.

Lemma returned_dates_are_in_range_witness :
  Z.abs 1756944000000 <= maxTime.
Proof.
  destruct (returned_dates_are_in_range strictEngine) as [_ H].
  apply (H (Some "2025-08-05") None (CalendarDate 2025 9 4));
    vm_compute; reflexivity.
Defined.



End ParserProperties.



(** ** What the date cells show *)

Section DisplayProperties.
Import JS Spec.
Open Scope string_scope.

(** X9.  A date string that passes a numeric pattern with a month outside
    01-12 or a day outside 01-31 is not shown as the "unspecified"
    placeholder that [null], the empty string and an unparseable string
    get: the cell reads ["Invalid Date"]. *)
Theorem out_of_bounds_date_is_shown_as_Invalid_Date
        (engine : string -> Number) (localize : Z -> Text) :
  (forall s,
      test CustomerTable.iso s = true \/ test CustomerTable.ymdSlash s = true ->
      ~ (1 <= numeral (substring 5 2 s) <= 12 /\
         1 <= numeral (substring 8 2 s) <= 31) ->
      CustomerTable.formatDate engine localize (Some s)
      = text "Invalid Date") /\
  (forall s,
      test CustomerTable.dmySlash s = true ->
      ~ (1 <= numeral (substring 3 2 s) <= 12 /\
         1 <= numeral (substring 0 2 s) <= 31) ->
      CustomerTable.formatDate engine localize (Some s)
      = text "Invalid Date") /\
  text "Invalid Date" <> CustomerTable.unspecified /\
  CustomerTable.formatDate engine localize None = CustomerTable.unspecified /\
  CustomerTable.formatDate engine localize (Some "")
  = CustomerTable.unspecified /\
  (forall s,
      CustomerTable.parseDateAssume2025 engine (Some s) = None ->
      CustomerTable.formatDate engine localize (Some s)
      = CustomerTable.unspecified).
Proof.
  destruct (parse_numeric_out_of_bounds engine) as [H1 H2].
  split; [|split; [|split; [|split; [|split]]]].
  - intros s H Hout. unfold CustomerTable.formatDate.
    now rewrite (H1 s H Hout).
  - intros s H Hout. unfold CustomerTable.formatDate.
    now rewrite (H2 s H Hout).
  - discriminate.
  - reflexivity.
  - reflexivity.
  - intros s H. unfold CustomerTable.formatDate. now rewrite H.
Qed.

Lemma out_of_bounds_date_is_shown_as_Invalid_Date_witness :
  CustomerTable.formatDate strictEngine (fun _ => nil) (Some "2025-13-01")
  = text "Invalid Date" /\
  CustomerTable.formatDate strictEngine (fun _ => nil) (Some "31/00/2025")
  = text "Invalid Date" /\
  CustomerTable.formatDate strictEngine (fun _ => nil) (Some "tomorrow")
  = CustomerTable.unspecified.
Proof.
  destruct (out_of_bounds_date_is_shown_as_Invalid_Date
              strictEngine (fun _ => nil))
    as (H1 & H2 & _ & _ & _ & H3).
  split; [|split].
  - apply H1; [left; reflexivity|]. vm_compute. intuition discriminate.
  - apply H2; [reflexivity|]. vm_compute. intuition discriminate.
  - apply H3. reflexivity.
Defined.

(** X10.  The renewal cell shows what the date cell would show for the
    renewal date whenever that date parses, whatever the charging date is,
    also when it parses to an Invalid Date; it shows the placeholder when
    neither date parses. *)
Theorem renewal_cell_shows_the_recorded_renewal
        (engine : string -> Number) (localize : Z -> Text)
        (charging renewal : option string) :
  (forall d,
      CustomerTable.parseDateAssume2025 engine renewal = Some d ->
      CustomerTable.formatRenewal engine localize charging renewal
      = CustomerTable.formatDate engine localize renewal) /\
  (CustomerTable.parseDateAssume2025 engine renewal = None ->
   CustomerTable.parseDateAssume2025 engine charging = None ->
   CustomerTable.formatRenewal engine localize charging renewal
   = CustomerTable.unspecified).
Proof.
  unfold CustomerTable.formatRenewal, CustomerTable.formatDate.
  rewrite computeRenewalDate_cases. split.
  - now intros d ->.
  - now intros -> ->.
Qed.

Lemma renewal_cell_shows_the_recorded_renewal_witness :
  CustomerTable.formatRenewal strictEngine (fun _ => nil)
                              (Some "2025-08-05") (Some "2025-13-01")
  = text "Invalid Date" /\
  CustomerTable.formatRenewal strictEngine (fun _ => nil) (Some "?") None
  = CustomerTable.unspecified.
Proof.
  destruct (renewal_cell_shows_the_recorded_renewal
              strictEngine (fun _ => nil) (Some "2025-08-05")
              (Some "2025-13-01")) as [H1 _].
  destruct (renewal_cell_shows_the_recorded_renewal
              strictEngine (fun _ => nil) (Some "?") None) as [_ H2].
  split.
  - rewrite (H1 (mkDate NaN)); reflexivity.
  - apply H2; reflexivity.
Defined.



(** X12.  The date cells of the two components agree: on every input,
    [formatDate] and [formatRenewal] of CustomerTable and of UserDashboard
    return the same text. *)
Theorem duplicated_formatters_agree
        (engine : string -> Number) (localize : Z -> Text) :
  (forall dateString,
      CustomerTable.formatDate engine localize dateString
      = UserDashboard.formatDate engine localize dateString) /\
  (forall charging renewal,
      CustomerTable.formatRenewal engine localize charging renewal
      = UserDashboard.formatRenewal engine localize charging renewal).
Proof.
  assert (forall x, CustomerTable.parseDateAssume2025 engine x
                    = UserDashboard.parseDateAssume2025 engine x) as Hparse.
  { intros [[|c s]|]; reflexivity. }
  split.
  - intros x. unfold CustomerTable.formatDate, UserDashboard.formatDate.
    now rewrite Hparse.
  - intros c r.
    unfold CustomerTable.formatRenewal, UserDashboard.formatRenewal,
      CustomerTable.computeRenewalDate, UserDashboard.computeRenewalDate.
    now rewrite !Hparse.
Qed.

End DisplayProperties.

(** ** Statuses: the badges of the table and the counts of the dashboard *)

Section StatusProperties.
Import JS.

Lemma eqText_eq (a b : Text) : eqText a b = true <-> a = b.
Proof.
  revert b. induction a as [|x a IH]; intros [|y b]; cbn;
    try (split; [discriminate | discriminate]); [tauto|].
  rewrite andb_true_iff, N.eqb_eq, IH. split.
  - now intros [-> ->].
  - now intros [= -> ->].
Qed.

Lemma count_split {A : Type} (f g h : A -> bool) (l : list A) :
  (forall a, f a = g a || h a) -> (forall a, g a && h a = false) ->
  List.length (filter f l)
  = (List.length (filter g l) + List.length (filter h l))%nat.
Proof.
  intros Hor Hdisj. induction l as [|a l IH]; [reflexivity|].
  cbn [filter]. rewrite (Hor a). specialize (Hdisj a).
  destruct (g a), (h a); cbn [orb List.length] in *;
    try discriminate; lia.
Qed.

(** X13.  The table shows the paid badge for the status ["paid"] and for
    its Arabic form, the dashboard counts the Arabic form only: the rows
    shown as paid are those the dashboard counts plus those whose status
    is ["paid"], so the dashboard never counts more paid customers than
    the table shows. *)
Theorem paid_badges_and_paid_count (rows : list Dashboard.Row) :
  let shownPaid :=
      filter (fun c =>
                eqText (CustomerTable.label
                          (CustomerTable.getPaymentStatusBadge
                             (Dashboard.payment_status c)))
                       [0x62F; 0x641; 0x639]%N) rows in
  let english :=
      filter (fun c => eqText (Dashboard.payment_status c) (text "paid"))
             rows in
  Z.of_nat (List.length shownPaid)
  = Dashboard.paidCustomers (Some rows) + Z.of_nat (List.length english) /\
  Dashboard.paidCustomers (Some rows) <= Z.of_nat (List.length shownPaid).
Proof.
  cbv zeta. unfold Dashboard.paidCustomers.
  rewrite (count_split
             _ (fun c => eqText (Dashboard.payment_status c)
                                [0x62F; 0x641; 0x639]%N)
             (fun c => eqText (Dashboard.payment_status c) (text "paid"))).
  - split; lia.
  - intros c. unfold CustomerTable.getPaymentStatusBadge.
    destruct (eqText (Dashboard.payment_status c) (text "paid")),
      (eqText (Dashboard.payment_status c) [0x62F; 0x641; 0x639]%N);
      reflexivity.
  - intros c.
    destruct (eqText (Dashboard.payment_status c) [0x62F; 0x641; 0x639]%N)
             eqn:E1; [|reflexivity].
    destruct (eqText (Dashboard.payment_status c) (text "paid")) eqn:E2;
      [|reflexivity].
    apply eqText_eq in E1, E2. rewrite E1 in E2. discriminate E2.
Qed.

(** X14.  The same for renewals: the table shows the renewed badge for the
    status ["done"] and for its Arabic form, the dashboard counts the
    Arabic form only. *)
Theorem renewed_badges_and_renewed_count (rows : list Dashboard.Row) :
  let shownRenewed :=
      filter (fun c =>
                eqText (CustomerTable.label
                          (CustomerTable.getRenewalStatusBadge
                             (Dashboard.renewal_status c)))
                       [0x62A; 0x645; 0x20; 0x627; 0x644; 0x62A; 0x62C; 0x62F;
                        0x64A; 0x62F]%N) rows in
  let english :=
      filter (fun c => eqText (Dashboard.renewal_status c) (text "done"))
             rows in
  Z.of_nat (List.length shownRenewed)
  = Dashboard.renewedCustomers (Some rows) + Z.of_nat (List.length english) /\
  Dashboard.renewedCustomers (Some rows) <= Z.of_nat (List.length shownRenewed).
Proof.
  cbv zeta. unfold Dashboard.renewedCustomers.
  rewrite (count_split
             _ (fun c => eqText (Dashboard.renewal_status c) [0x62A; 0x645]%N)
             (fun c => eqText (Dashboard.renewal_status c) (text "done"))).
  - split; lia.
  - intros c. unfold CustomerTable.getRenewalStatusBadge.
    destruct (eqText (Dashboard.renewal_status c) (text "done")),
      (eqText (Dashboard.renewal_status c) [0x62A; 0x645]%N);
      reflexivity.
  - intros c.
    destruct (eqText (Dashboard.renewal_status c) [0x62A; 0x645]%N) eqn:E1;
      [|reflexivity].
    destruct (eqText (Dashboard.renewal_status c) (text "done")) eqn:E2;
      [|reflexivity].
    apply eqText_eq in E1, E2. rewrite E1 in E2. discriminate E2.
Qed.

(** X15.  Whatever the store answers, rows or [null], the dashboard never
    counts more paid or more renewed customers than customers, and no
    count is negative. *)
Theorem counts_are_within_the_total (customers : option (list Dashboard.Row)) :
  0 <= Dashboard.paidCustomers customers <= Dashboard.totalCustomers customers
  /\ 0 <= Dashboard.renewedCustomers customers
     <= Dashboard.totalCustomers customers.
Proof.
  destruct customers as [l|]; cbn; [|lia].
  pose proof (filter_length_le
                (fun c => eqText (Dashboard.payment_status c)
                                 [0x62F; 0x641; 0x639]%N) l).
  pose proof (filter_length_le
                (fun c => eqText (Dashboard.renewal_status c)
                                 [0x62A; 0x645]%N) l).
  lia.
Qed.

End StatusProperties.

(** ** Deleting a customer from the table *)

Section DeletionProperties.

Variable Customer : Type.
Variable id : Customer -> Z.

Lemma deleteCustomer_accepted (i : Z) (customers : list Customer) :
  fst (CustomerTable.deleteCustomer id false i customers)
  = filter (fun c => negb (id c =? i)) customers.
Proof. reflexivity. Qed.

(** X16.  After a delete that the store accepted, the table holds exactly
    the rows with another id, in the order they were in: a table sorted by
    id stays sorted.  After a delete that the store refused, the table is
    what it was and the toast is the destructive one. *)
Theorem deleteCustomer_removes_that_id_only
        (i : Z) (customers : list Customer) :
  (forall c,
      In c (fst (CustomerTable.deleteCustomer id false i customers)) <->
      In c customers /\ id c <> i) /\
  (StronglySorted (fun a b => id a <= id b) customers ->
   StronglySorted (fun a b => id a <= id b)
                  (fst (CustomerTable.deleteCustomer id false i customers))) /\
  fst (CustomerTable.deleteCustomer id true i customers) = customers /\
  CustomerTable.toastVariant
    (snd (CustomerTable.deleteCustomer id true i customers))
  = Some "destructive"%string /\
  CustomerTable.toastVariant
    (snd (CustomerTable.deleteCustomer id false i customers)) = None.
Proof.
  split; [|split; [|repeat split]].
  - intros c. rewrite deleteCustomer_accepted.
    rewrite filter_In, negb_true_iff, Z.eqb_neq. tauto.
  - rewrite deleteCustomer_accepted.
    induction 1 as [|a l Hl IH Ha]; cbn [filter]; [constructor|].
    destruct (negb (id a =? i)); [|exact IH].
    constructor; [exact IH|].
    rewrite Forall_forall in *. intros c Hc.
    apply filter_In in Hc as [Hc _]. now apply Ha.
Qed.

(** X17.  Deleting an id that no row has leaves the table as it is, and
    a second accepted delete of the same id leaves the table the first one
    left, whichever list it filters.  A second accepted delete of another
    id that was started from the same render as the first filters the list
    of that render and overwrites what the first one left: the rows of the
    first id are in the table again.  Started after the table was rendered
    anew, it leaves the rows of neither id. *)
Theorem deleteCustomer_twice (i j : Z) (shown : list Customer) :
  let afterFirst := fst (CustomerTable.deleteCustomer id false i shown) in
  ((forall c, In c shown -> id c <> i) -> afterFirst = shown) /\
  CustomerTable.deleteCustomerOfRender id false i shown afterFirst = afterFirst
  /\
  CustomerTable.deleteCustomerOfRender id false i afterFirst afterFirst
  = afterFirst /\
  (forall c, In c shown -> id c = i -> i <> j ->
             ~ In c afterFirst /\
             In c (CustomerTable.deleteCustomerOfRender
                     id false j shown afterFirst)) /\
  (forall c, In c (CustomerTable.deleteCustomerOfRender
                     id false j afterFirst afterFirst) <->
             In c shown /\ id c <> i /\ id c <> j).
Proof.
  cbv zeta. rewrite deleteCustomer_accepted.
  unfold CustomerTable.deleteCustomerOfRender.
  split; [|split; [|split; [|split]]].
  - intros Habsent. induction shown as [|c l IH]; [reflexivity|].
    cbn [filter].
    assert ((id c =? i) = false) as ->
        by (apply Z.eqb_neq, Habsent; now left).
    cbn [negb]. f_equal. apply IH. intros c' Hc'. apply Habsent. now right.
  - reflexivity.
  - induction shown as [|c l IH]; [reflexivity|].
    cbn [filter]. destruct (negb (id c =? i)) eqn:E; [|exact IH].
    cbn [filter]. now rewrite E, IH.
  - intros c Hc Hi Hij. rewrite !filter_In, !negb_true_iff, !Z.eqb_neq.
    split; [tauto|]. split; [assumption | congruence].
  - intros c. rewrite !filter_In, !negb_true_iff, !Z.eqb_neq. tauto.
Qed.

End DeletionProperties.

Lemma deleteCustomer_removes_that_id_only_witness :
  StronglySorted (fun a b => a <= b)
                 (fst (CustomerTable.deleteCustomer (fun c : Z => c) false 2
                                                    [1; 2; 3])).
Proof.
  destruct (deleteCustomer_removes_that_id_only Z (fun c => c) 2 [1; 2; 3])
    as (_ & H & _).
  apply H. repeat constructor; lia.
Defined.

Lemma deleteCustomer_twice_witness :
  fst (CustomerTable.deleteCustomer (fun c : Z => c) false 7 [1; 2; 3])
  = [1; 2; 3] /\
  ~ In 1 (fst (CustomerTable.deleteCustomer (fun c : Z => c) false 1
                                            [1; 2; 3])) /\
  In 1 (CustomerTable.deleteCustomerOfRender
          (fun c : Z => c) false 2 [1; 2; 3]
          (fst (CustomerTable.deleteCustomer (fun c : Z => c) false 1
                                             [1; 2; 3]))).
Proof.
  destruct (deleteCustomer_twice Z (fun c => c) 7 7 [1; 2; 3]) as (H & _).
  destruct (deleteCustomer_twice Z (fun c => c) 1 2 [1; 2; 3])
    as (_ & _ & _ & H' & _).
  split.
  - apply H. intros c Hc. cbn in Hc. lia.
  - apply (H' 1); [now left | reflexivity | discriminate].
Defined.

(** ** The form and the tabs of the administrator's page *)

Section AdminProperties.
Import AdminDashboard.
Open Scope string_scope.

Variable Customer : Type.

(** A property that the initial state has and every handler keeps holds
    after every sequence of events. *)
Lemma run_invariant (P : State Customer -> Prop) :
  (forall e st, P st -> P (handle e st)) ->
  forall es st, P st -> P (run es st).
Proof.
  intros Hstep es. unfold run.
  induction es as [|e es IH]; intros st Hst; cbn [fold_left]; auto.
Qed.

(** The same for the sequences in which every event is offered by the
    page when it happens. *)
Lemma run_invariant_offered (P : State Customer -> Prop) :
  (forall e st, offered e st = true -> P st -> P (handle e st)) ->
  forall es st, possible es st = true -> P st -> P (run es st).
Proof.
  intros Hstep es. unfold run.
  induction es as [|e es IH]; intros st Hes Hst; cbn [fold_left]; auto.
  cbn [possible] in Hes. apply andb_true_iff in Hes as [He Hes].
  apply IH; auto.
Qed.

(** X18.  Whatever the user does, in whatever order, a customer is held
    for editing only while the form is shown: once the form is closed, by
    save or by cancel, no customer is left behind for the next one to
    open on. *)
Theorem editing_only_while_the_form_is_shown
        (es : list (Event Customer)) (c : Customer) :
  editingCustomer (run es initial) = Some c ->
  showForm (run es initial) = true.
Proof.
  revert c.
  apply (run_invariant
           (fun st => forall c, editingCustomer st = Some c ->
                                showForm st = true)).
  - intros [|c'| | |v] st Hst c; cbn; try discriminate; auto.
    intros H. now apply (Hst c).
  - discriminate.
Qed.

(** X19.  As long as the user does what the page offers, the form is
    shown over the customers tab only: whenever [showForm] holds the
    active tab is ["customers"], so closing the form lands on the table;
    and the active tab is always one of the two the page has. *)
Theorem form_is_shown_over_the_customers_tab (es : list (Event Customer)) :
  possible es initial = true ->
  (showForm (run es initial) = true ->
   activeTab (run es initial) = "customers") /\
  (activeTab (run es initial) = "dashboard" \/
   activeTab (run es initial) = "customers").
Proof.
  intros Hes.
  apply (run_invariant_offered
           (fun st => (showForm st = true -> activeTab st = "customers") /\
                      (activeTab st = "dashboard" \/
                       activeTab st = "customers"))) with (es := es);
    [| exact Hes | split; [discriminate | now left]].
  intros [|c'| | |v] st Hoff [Hform Htab]; cbn in Hoff |- *.
  - auto.
  - apply andb_true_iff in Hoff as [_ Hoff]. apply String.eqb_eq in Hoff.
    auto.
  - split; [discriminate | exact Htab].
  - split; [discriminate | exact Htab].
  - apply andb_true_iff in Hoff as [Hshow Hv].
    apply negb_true_iff in Hshow. rewrite Hshow.
    split; [discriminate|].
    apply orb_true_iff in Hv as [Hv | Hv]; apply String.eqb_eq in Hv; auto.
Qed.

End AdminProperties.

Lemma editing_only_while_the_form_is_shown_witness :
  AdminDashboard.showForm
    (AdminDashboard.run
       [AdminDashboard.ChangeTab "customers"%string;
        AdminDashboard.EditCustomer 7] AdminDashboard.initial) = true.
Proof.
  apply (editing_only_while_the_form_is_shown Z _ 7). reflexivity.
Defined.

Lemma form_is_shown_over_the_customers_tab_witness :
  AdminDashboard.activeTab
    (AdminDashboard.run
       [AdminDashboard.AddCustomer; AdminDashboard.CancelForm;
        AdminDashboard.ChangeTab "dashboard"%string;
        AdminDashboard.AddCustomer] (@AdminDashboard.initial Z))
  = "customers"%string.
Proof.
  destruct (form_is_shown_over_the_customers_tab
              Z [AdminDashboard.AddCustomer; AdminDashboard.CancelForm;
                 AdminDashboard.ChangeTab "dashboard"%string;
                 AdminDashboard.AddCustomer] eq_refl) as [H _].
  apply H. reflexivity.
Defined.
